(** * Fitness-tracker module [homework.py]: a shallow embedding

    The module computes distance, mean speed and spent calories of three
    kinds of workout and prints a one-line report.  The embedding keeps
    the arithmetic the interpreter performs: Python [int] is [Z], Python
    [float] is IEEE-754 binary64 ([PrimFloat.float]), exceptions are
    values of an error monad, class attributes and methods are looked up
    along the method resolution order, [str] is the UTF-8 byte string, and
    standard output is a stream that takes a line or raises for it. *)

From Stdlib Require Import ZArith Floats String Ascii List Lia DecimalString.
From Stdlib Require DecimalN.
From stdpp Require Import base option gmap strings.

Set Warnings "-inexact-float".

Local Open Scope Z_scope.

(** ** Exceptions and the error monad

    [Unsupported] is not an exception of the interpreter: it marks a format
    string or a format spec outside the fragment of [str.format] that is
    modelled below.  The template of the module stays inside the
    fragment. *)

Inductive exn :=
| ZeroDivisionError
| OverflowError
| NotImplementedError (msg : string)
| ValueError (msg : string)
| TypeError
| KeyError
| AttributeError
| UnicodeEncodeError
| OSError
| Unsupported.

Inductive result (A : Type) :=
| Ok (a : A)
| Raise (e : exn).
Arguments Ok {A} a.
Arguments Raise {A} e.

#[global] Instance result_ret : MRet result := fun _ a => Ok a.
#[global] Instance result_bind : MBind result := fun _ _ f m =>
  match m with
  | Ok a => f a
  | Raise e => Raise e
  end.

#[global] Instance result_fmap : FMap result := fun _ _ f m =>
  match m with
  | Ok a => Ok (f a)
  | Raise e => Raise e
  end.

(** ** Python numbers *)

Module Py.

(** A number is an [int] of unbounded size or a binary64 [float]. *)
Inductive num :=
| Int (z : Z)
| Float (f : float).

Definition float_of_SF (s : spec_float) : result float :=
  match s with
  | S754_infinity _ => Raise OverflowError
  | _ => Ok (SF2Prim s)
  end.

(** [float(z)]: the nearest binary64, ties to even; [OverflowError] when
    [z] is out of range. *)
Definition float_of_int (z : Z) : result float :=
  float_of_SF (binary_normalize prec emax z 0 false).

Definition to_float (x : num) : result float :=
  match x with
  | Int z => float_of_int z
  | Float f => Ok f
  end.

(** [a / b] on two ints: the correctly rounded quotient. *)
Definition int_true_divide (a b : Z) : result float :=
  if b =? 0 then Raise ZeroDivisionError
  else
    let negate := xorb (a <? 0) (b <? 0) in
    if a =? 0 then Ok (if negate then PrimFloat.neg_zero else PrimFloat.zero)
    else
      let '(q, e, l) := SFdiv_core_binary prec emax (Z.abs a) 0 (Z.abs b) 0 in
      float_of_SF (binary_round_aux prec emax negate q e l).

Definition float_div (x y : float) : result float :=
  if (y =? 0)%float then Raise ZeroDivisionError else Ok (x / y)%float.

Definition mul (x y : num) : result num :=
  match x, y with
  | Int a, Int b => Ok (Int (a * b))
  | _, _ => a ← to_float x; b ← to_float y; Ok (Float (a * b)%float)
  end.

Definition add (x y : num) : result num :=
  match x, y with
  | Int a, Int b => Ok (Int (a + b))
  | _, _ => a ← to_float x; b ← to_float y; Ok (Float (a + b)%float)
  end.

Definition truediv (x y : num) : result num :=
  match x, y with
  | Int a, Int b => Float <$> int_true_divide a b
  | _, _ => a ← to_float x; b ← to_float y; Float <$> float_div a b
  end.

Section Pow.

(** The C library's [pow], which the interpreter calls for a finite base
    other than 0 and 1.  Its rounding is the platform's; it signals a range
    error through an infinite or a zero result. *)
Variable libm_pow : float -> float -> float.

(** [x ** 2.0] on a float: the special cases are settled before [pow] is
    called, and an infinite result from finite operands is an
    [OverflowError]. *)
Definition float_pow2 (x : float) : result float :=
  if is_nan x then Ok x
  else if is_infinity x then Ok (abs x)
  else if (x =? 0)%float then Ok PrimFloat.zero
  else
    let v := if (x <? 0)%float then (- x)%float else x in
    if (v =? 1)%float then Ok PrimFloat.one
    else
      let r := libm_pow v 2%float in
      if is_infinity r then Raise OverflowError else Ok r.

(** [x ** 2] with the literal exponent of the source. *)
Definition pow2 (x : num) : result num :=
  match x with
  | Int a => Ok (Int (a * a))
  | Float f => Float <$> float_pow2 f
  end.

End Pow.

(** [x > 0] as the interpreter compares a number with the int 0. *)
Definition gt_zero (x : num) : bool :=
  match x with
  | Int z => 0 <? z
  | Float f => (0 <? f)%float
  end.

Definition ge_zero (x : num) : bool :=
  match x with
  | Int z => 0 <=? z
  | Float f => (0 <=? f)%float
  end.

End Py.

Import Py.

Declare Scope py_scope.
Delimit Scope py_scope with py.
Notation "x * y" := (a ← x; b ← y; Py.mul a b) : py_scope.
Notation "x + y" := (a ← x; b ← y; Py.add a b) : py_scope.
Notation "x / y" := (a ← x; b ← y; Py.truediv a b) : py_scope.


(** ** [str.format] on the fragment the module uses *)

Module Fmt.

Local Open Scope string_scope.

Definition digit (n : Z) : ascii := ascii_of_nat (48 + Z.to_nat (n mod 10)).

(** The decimal digits of a natural number, most significant first. *)
Definition int_digits (n : Z) : string :=
  NilZero.string_of_uint (N.to_uint (Z.to_N n)).

(** The last [p] decimal digits of [n]. *)
Fixpoint frac_digits (p : nat) (n : Z) : string :=
  match p with
  | O => ""
  | S p' => frac_digits p' (n / 10) ++ String (digit n) ""
  end.

(** [n] units of 10^-p in positional notation. *)
Definition fixed (p : nat) (n : Z) : string :=
  int_digits (n / 10 ^ Z.of_nat p)
  ++ match p with O => "" | S _ => "." ++ frac_digits p n end.

(** [n / d] rounded to the nearest integer, ties to even ([d > 0]). *)
Definition round_half_even (n d : Z) : Z :=
  let q := n / d in
  match 2 * (n mod d) ?= d with
  | Lt => q
  | Gt => q + 1
  | Eq => if Z.even q then q else q + 1
  end.

(** [m * 2^e] in units of 10^-p, correctly rounded. *)
Definition scaled (p : nat) (m : positive) (e : Z) : Z :=
  let n := Z.pos m * 10 ^ Z.of_nat p in
  if (0 <=? e)%Z then n * 2 ^ e else round_half_even n (2 ^ (- e)).

Definition sign (s : bool) : string := if s then "-" else "".

(** [format(x, '.{p}f')] for a float. *)
Definition format_f (p : nat) (x : float) : string :=
  match Prim2SF x with
  | S754_nan => "nan"
  | S754_infinity s => sign s ++ "inf"
  | S754_zero s => sign s ++ fixed p 0
  | S754_finite s m e => sign s ++ fixed p (scaled p m e)
  end.

(** [str(z)] for an int. *)
Definition str_int (z : Z) : string := sign (z <? 0)%Z ++ int_digits (Z.abs z).

Inductive value :=
| VStr (s : string)
| VNum (n : num).

Inductive spec :=
| SpecEmpty
| SpecFixed (precision : nat)
| SpecOther.

Definition is_digit (c : ascii) : bool :=
  let n := nat_of_ascii c in (48 <=? n)%nat && (n <=? 57)%nat.

(** The digits of a precision, then the presentation type [f]. *)
Fixpoint parse_precision (acc : nat) (seen : bool) (s : string) : spec :=
  match s with
  | String c r =>
      if is_digit c then parse_precision (10 * acc + (nat_of_ascii c - 48)) true r
      else if (c =? "f")%char && seen then
        match r with "" => SpecFixed acc | _ => SpecOther end
      else SpecOther
  | "" => SpecOther
  end.

Definition parse_spec (s : string) : spec :=
  match s with
  | "" => SpecEmpty
  | String c r => if (c =? ".")%char then parse_precision 0 false r else SpecOther
  end.

Definition format_value (v : value) (sp : string) : result string :=
  match parse_spec sp, v with
  | SpecEmpty, VStr s => Ok s
  | SpecEmpty, VNum (Int z) => Ok (str_int z)
  | SpecEmpty, VNum (Float _) => Raise Unsupported
  | SpecFixed p, VNum n => f ← to_float n; Ok (format_f p f)
  | SpecFixed _, VStr _ =>
      Raise (ValueError "Unknown format code 'f' for object of type 'str'")
  | SpecOther, _ => Raise Unsupported
  end.

(** The pieces of a format string, in order; [Bad] ends the list where
    the scan of the string fails.  A replacement field is [{name}] or
    [{name:spec}] with a keyword name; positional fields, attribute and
    index lookups, conversions and nested fields are outside the
    fragment. *)
Inductive segment :=
| Lit (c : ascii)
| Field (name sp : string)
| Bad (e : exn).

Inductive mode :=
| Text
| Name (name : string)
| Spec (name sp : string).

Definition snoc (s : string) (c : ascii) : string := s ++ String c "".

Definition special (c : ascii) : bool :=
  (c =? ".")%char || (c =? "[")%char || (c =? "!")%char || (c =? "{")%char.

Fixpoint parse (st : mode) (s : string) : list segment :=
  match s with
  | "" =>
      match st with
      | Text => []
      | _ => [Bad (ValueError "expected '}' before end of string")]
      end
  | String c r =>
      match st with
      | Text =>
          if (c =? "{")%char then
            match r with
            | String c' r' =>
                if (c' =? "{")%char then Lit c :: parse Text r' else parse (Name "") r
            | "" => [Bad (ValueError "Single '{' encountered in format string")]
            end
          else if (c =? "}")%char then
            match r with
            | String c' r' =>
                if (c' =? "}")%char then Lit c :: parse Text r'
                else [Bad (ValueError "Single '}' encountered in format string")]
            | "" => [Bad (ValueError "Single '}' encountered in format string")]
            end
          else Lit c :: parse Text r
      | Name n =>
          if special c || (is_digit c && String.eqb n "") then [Bad Unsupported]
          else if String.eqb n "" && ((c =? "}")%char || (c =? ":")%char)
          then [Bad Unsupported]
          else if (c =? "}")%char then Field n "" :: parse Text r
          else if (c =? ":")%char then parse (Spec n "") r
          else parse (Name (snoc n c)) r
      | Spec n sp =>
          if (c =? "}")%char then Field n sp :: parse Text r
          else if (c =? "{")%char then [Bad Unsupported]
          else parse (Spec n (snoc sp c)) r
      end
  end.

Fixpoint render (segs : list segment) (kwargs : gmap string value) : result string :=
  match segs with
  | [] => Ok ""
  | Lit c :: r => String c <$> render r kwargs
  | Field n sp :: r =>
      match kwargs !! n with
      | None => Raise KeyError
      | Some v => s ← format_value v sp; t ← render r kwargs; Ok (s ++ t)
      end
  | Bad e :: _ => Raise e
  end.

(** [fmt.format] applied to the keyword arguments [kwargs]. *)
Definition format (fmt : string) (kwargs : gmap string value) : result string :=
  render (parse Text fmt) kwargs.

(** The renderings of the fields whose value is a number, in order. *)
Fixpoint render_numeric (segs : list segment) (kwargs : gmap string value)
    : result (list string) :=
  match segs with
  | [] => Ok []
  | Lit _ :: r => render_numeric r kwargs
  | Field n sp :: r =>
      match kwargs !! n with
      | None => Raise KeyError
      | Some v =>
          s ← format_value v sp;
          t ← render_numeric r kwargs;
          Ok (match v with VNum _ => s :: t | VStr _ => t end)
      end
  | Bad e :: _ => Raise e
  end.

Fixpoint all_digits (s : string) : bool :=
  match s with
  | "" => true
  | String c r => is_digit c && all_digits r
  end.

(** The longest prefix of digits, and what follows it. *)
Fixpoint span_digits (s : string) : string * string :=
  match s with
  | "" => ("", "")
  | String c r =>
      if is_digit c then let '(a, b) := span_digits r in (String c a, b)
      else ("", s)
  end.

Definition strip_sign (s : string) : string :=
  match s with
  | String c r => if (c =? "-")%char then r else s
  | "" => s
  end.

(** Fixed-point notation with exactly [p] digits after the point: an
    optional minus sign, one digit or more, the point, [p] digits. *)
Definition is_fixed (p : nat) (s : string) : bool :=
  let '(i, r) := span_digits (strip_sign s) in
  negb (String.eqb i "")
  && match r with
     | String c f => (c =? ".")%char && (String.length f =? p)%nat && all_digits f
     | "" => false
     end.

End Fmt.


Local Open Scope string_scope.

(** ** [InfoMessage] *)

Module InfoMessage.

Record t := new {
  training_type : string;
  duration : num;
  distance : num;
  speed : num;
  calories : num
}.

Definition MESSAGE : string :=
  "Тип тренировки: {training_type}; "
  ++ "Длительность: {duration:.3f} ч.; "
  ++ "Дистанция: {distance:.3f} км; "
  ++ "Ср. скорость: {speed:.3f} км/ч; "
  ++ "Потрачено ккал: {calories:.3f}.".

(** [dataclasses.asdict]: the fields under their names. *)
Definition asdict (self : t) : gmap string Fmt.value :=
  {[ "training_type" := Fmt.VStr (training_type self);
     "duration" := Fmt.VNum (duration self);
     "distance" := Fmt.VNum (distance self);
     "speed" := Fmt.VNum (speed self);
     "calories" := Fmt.VNum (calories self) ]}.

Definition get_message (self : t) : result string :=
  Fmt.format MESSAGE (asdict self).

(** The numeric fields of the message, as they are rendered in it. *)
Definition numeric_fields (self : t) : result (list string) :=
  Fmt.render_numeric (Fmt.parse Fmt.Text MESSAGE) (asdict self).

End InfoMessage.

(** ** The class hierarchy *)

Inductive class :=
| Training
| Running
| SportsWalking
| Swimming.

#[global] Instance class_eq_dec : EqDecision class.
Proof. solve_decision. Defined.

Definition __name__ (c : class) : string :=
  match c with
  | Training => "Training"
  | Running => "Running"
  | SportsWalking => "SportsWalking"
  | Swimming => "Swimming"
  end.

Definition base (c : class) : option class :=
  match c with
  | Training => None
  | Running | SportsWalking | Swimming => Some Training
  end.

(** Method resolution order: the class, then its bases. *)
Definition mro (c : class) : list class :=
  match base c with
  | None => [c]
  | Some b => [c; b]
  end.

(** The [ClassVar] constants a class body assigns. *)
Definition class_vars (c : class) : gmap string num :=
  match c with
  | Training =>
      {[ "LEN_STEP" := Float 0.65; "M_IN_KM" := Int 1000; "MIN_IN_H" := Int 60 ]}
  | Running =>
      {[ "CALORIES_MEAN_SPEED_MULTIPLIER" := Int 18;
         "CALORIES_MEAN_SPEED_SHIFT" := Float 1.79 ]}
  | SportsWalking =>
      {[ "CALORIES_MEAN_SPEED_MULTIPLIER" := Float 0.035;
         "CALORIES_MEAN_SPEED_SHIFT" := Float 0.029;
         "M_IN_SEC" := Float 0.278;
         "СM_IN_M" := Int 100 ]}
  | Swimming =>
      {[ "LEN_STEP" := Float 1.38;
         "CALORIES_MEAN_SPEED_MULTIPLIER" := Float 1.1;
         "CALORIES_MEAN_SPEED_SHIFT" := Int 2 ]}
  end.

(** The dataclass fields a class body declares, in order. *)
Definition own_fields (c : class) : list string :=
  match c with
  | Training => ["action"; "duration"; "weight"]
  | Running => []
  | SportsWalking => ["height"]
  | Swimming => ["length_pool"; "count_pool"]
  end.

(** The methods a class body defines. *)
Definition own_methods (c : class) : list string :=
  match c with
  | Training =>
      ["get_distance"; "get_mean_speed"; "get_spent_calories"; "show_training_info"]
  | Running => ["get_spent_calories"]
  | SportsWalking => ["get_spent_calories"]
  | Swimming => ["get_mean_speed"; "get_spent_calories"]
  end.

(** The fields of the generated [__init__]: those of the bases first. *)
Definition fields (c : class) : list string :=
  concat (map own_fields (rev (mro c))).

(** An instance: its class and its [__dict__], in field order. *)
Record training := instance {
  __class__ : class;
  __dict__ : list (string * num)
}.

(** The generated [__init__]: one positional argument per field. *)
Definition __init__ (c : class) (args : list num) : result training :=
  if decide (length args = length (fields c))
  then Ok (instance c (zip (fields c) args))
  else Raise TypeError.

(** The class in whose body the method [name] is found for an instance of [c]. *)
Definition resolve (c : class) (name : string) : option class :=
  find (fun k => bool_decide (name ∈ own_methods k)) (mro c).

(** [c.name] for a class constant.  Only the data of the module is looked
    up this way: methods are found by [resolve], and the attributes every
    object inherits from [object] are not modelled, so [object] is left
    out of the order. *)
Definition class_getattr (c : class) (name : string) : option num :=
  list_find (fun k => is_Some (class_vars k !! name)) (mro c)
  ≫= fun '(_, k) => class_vars k !! name.

(** [self.name] for data, that is for the name of a dataclass field or of
    a class constant: the instance first, then the classes. *)
Definition getattr (self : training) (name : string) : result num :=
  match (list_to_map (__dict__ self) : gmap string num) !! name with
  | Some v => Ok v
  | None =>
      match class_getattr (__class__ self) name with
      | Some v => Ok v
      | None => Raise AttributeError
      end
  end.

Notation "self ∙ name" := (getattr self name) (at level 9, name at level 0, format "self ∙ name").


(** ** Methods *)

Definition pow_2 (libm_pow : float -> float -> float) (x : result num) : result num :=
  a ← x; Py.pow2 libm_pow a.

Section Methods.

Variable libm_pow : float -> float -> float.

Definition Training_get_distance (self : training) : result num :=
  (self∙"action" * self∙"LEN_STEP" / self∙"M_IN_KM")%py.

Definition get_distance (self : training) : result num :=
  match resolve (__class__ self) "get_distance" with
  | Some Training => Training_get_distance self
  | _ => Raise AttributeError
  end.

Definition Training_get_mean_speed (self : training) : result num :=
  (get_distance self / self∙"duration")%py.

Definition Swimming_get_mean_speed (self : training) : result num :=
  (self∙"length_pool"
   * self∙"count_pool"
   / self∙"M_IN_KM"
   / self∙"duration")%py.

Definition get_mean_speed (self : training) : result num :=
  match resolve (__class__ self) "get_mean_speed" with
  | Some Training => Training_get_mean_speed self
  | Some Swimming => Swimming_get_mean_speed self
  | _ => Raise AttributeError
  end.

Definition Training_get_spent_calories (self : training) : result num :=
  Raise (NotImplementedError "Метод будет реализован в дочерних классах").

Definition Running_get_spent_calories (self : training) : result num :=
  ((self∙"CALORIES_MEAN_SPEED_MULTIPLIER"
    * get_mean_speed self
    + self∙"CALORIES_MEAN_SPEED_SHIFT")
   * self∙"weight"
   / self∙"M_IN_KM"
   * self∙"duration"
   * self∙"MIN_IN_H")%py.

Definition SportsWalking_get_spent_calories (self : training) : result num :=
  ((self∙"CALORIES_MEAN_SPEED_MULTIPLIER"
    * self∙"weight"
    + (pow_2 libm_pow (get_mean_speed self
                       * self∙"M_IN_SEC")
       / (self∙"height"
          / self∙"СM_IN_M"))
      * self∙"CALORIES_MEAN_SPEED_SHIFT"
      * self∙"weight")
   * self∙"duration"
   * self∙"MIN_IN_H")%py.

Definition Swimming_get_spent_calories (self : training) : result num :=
  ((get_mean_speed self
    + self∙"CALORIES_MEAN_SPEED_MULTIPLIER")
   * self∙"CALORIES_MEAN_SPEED_SHIFT"
   * self∙"weight"
   * self∙"duration")%py.

Definition get_spent_calories (self : training) : result num :=
  match resolve (__class__ self) "get_spent_calories" with
  | Some Training => Training_get_spent_calories self
  | Some Running => Running_get_spent_calories self
  | Some SportsWalking => SportsWalking_get_spent_calories self
  | Some Swimming => Swimming_get_spent_calories self
  | None => Raise AttributeError
  end.

Definition Training_show_training_info (self : training) : result InfoMessage.t :=
  let name := __name__ (__class__ self) in
  duration ← self∙"duration";
  distance ← get_distance self;
  speed ← get_mean_speed self;
  calories ← get_spent_calories self;
  Ok (InfoMessage.new name duration distance speed calories).

Definition show_training_info (self : training) : result InfoMessage.t :=
  match resolve (__class__ self) "show_training_info" with
  | Some Training => Training_show_training_info self
  | _ => Raise AttributeError
  end.

(** ** The dispatcher and the script *)

Definition WORKOUT_TYPES : gmap string class :=
  {[ "SWM" := Swimming; "RUN" := Running; "WLK" := SportsWalking ]}.

Definition read_package (workout_type : string) (data : list num) : result training :=
  if bool_decide (workout_type ∈ dom WORKOUT_TYPES)
  then
    match WORKOUT_TYPES !! workout_type with
    | Some c => __init__ c data
    | None => Raise KeyError
    end
  else Raise (ValueError "Неизвестный тип тренировки").

(** Standard output: the lines printed so far. *)
Definition stdout := list string.

(** [print] writes the line to [sys.stdout], whose encoding and state are
    outside the program: [write_error line] is the exception the stream
    raises for that text (UnicodeEncodeError when its encoding has no
    Cyrillic, OSError when it is closed), if any. *)
Variable write_error : string -> option exn.

Definition print (line : string) (out : stdout) : result stdout :=
  match write_error line with
  | Some e => Raise e
  | None => Ok (out ++ [line])%list
  end.

Definition main (training : training) (out : stdout) : result stdout :=
  info ← (m ← show_training_info training; InfoMessage.get_message m);
  print info out.

Definition packages : list (string * list num) :=
  [ ("SWM", [Int 720; Int 1; Int 80; Int 25; Int 40]);
    ("RUN", [Int 15000; Int 1; Int 75]);
    ("WLK", [Int 9000; Int 1; Int 75; Int 180]) ].

(** The loop of the script over a list of packages: what was printed, and
    the exception that ended the run, if any. *)
Fixpoint run (pkgs : list (string * list num)) (out : stdout) : stdout * option exn :=
  match pkgs with
  | [] => (out, None)
  | (workout_type, data) :: rest =>
      match training ← read_package workout_type data; main training out with
      | Ok out' => run rest out'
      | Raise e => (out, Some e)
      end
  end.

End Methods.

(** ** The statements of the specification, in the interpreter's arithmetic *)

Module Spec.

Definition int (z : Z) : result num := Ok (Int z).
Definition flt (f : float) : result num := Ok (Float f).

Definition step_length (c : class) : float :=
  match c with
  | Swimming => 1.38
  | _ => 0.65
  end.

(** action × step_length / 1000 *)
Definition distance (c : class) (action : result num) : result num :=
  (action * flt (step_length c) / int 1000)%py.

(** distance / duration *)
Definition mean_speed (distance duration : result num) : result num :=
  (distance / duration)%py.

(** (length_pool × count_pool / 1000) / duration *)
Definition swimming_mean_speed (length_pool count_pool duration : result num) : result num :=
  ((length_pool * count_pool / int 1000) / duration)%py.


(** (0.035 × weight + ((mean_speed × 0.278)² / (height / 100)) × 0.029 × weight)
    × duration × 60 *)
Definition walking_calories (libm_pow : float -> float -> float)
    (mean_speed weight height duration : result num) : result num :=
  ((flt 0.035 * weight
    + (pow_2 libm_pow (mean_speed * flt 0.278) / (height / int 100))
      * flt 0.029 * weight)
   * duration * int 60)%py.


(** The template of the report as the specification words it. *)
Definition MESSAGE : string :=
  "Workout type: {type}; Duration: {duration:.3f} h; "
  ++ "Distance: {distance:.3f} km; Avg speed: {speed:.3f} km/h; "
  ++ "Calories: {calories:.3f}.".

Definition report (m : InfoMessage.t) : result string :=
  Fmt.format MESSAGE
    {[ "type" := Fmt.VStr (InfoMessage.training_type m);
       "duration" := Fmt.VNum (InfoMessage.duration m);
       "distance" := Fmt.VNum (InfoMessage.distance m);
       "speed" := Fmt.VNum (InfoMessage.speed m);
       "calories" := Fmt.VNum (InfoMessage.calories m) ]}.

End Spec.

(** An instance built by the generated [__init__] of class [c]. *)
Definition instance_of (c : class) (self : training) : Prop :=
  exists args, __init__ c args = Ok self.

(** The shape of an instance of each class. *)
Definition shape (c : class) (self : training) : Prop :=
  match c with
  | Training | Running =>
      exists a d w,
        self = instance c [("action", a); ("duration", d); ("weight", w)]
  | SportsWalking =>
      exists a d w h,
        self = instance c [("action", a); ("duration", d); ("weight", w); ("height", h)]
  | Swimming =>
      exists a d w l n,
        self = instance c [("action", a); ("duration", d); ("weight", w);
                           ("length_pool", l); ("count_pool", n)]
  end.

(** The invariant [duration > 0] of the data model. *)
Definition positive_duration (self : training) : Prop :=
  exists d, self∙"duration" = Ok d /\ Py.gt_zero d = true.

Definition positive_height (self : training) : Prop :=
  exists h, self∙"height" = Ok h /\ Py.gt_zero h = true.

(** A number rendered with the format spec [.3f]. *)
Definition fmt3 (x : num) : result string :=
  f ← Py.to_float x; Ok (Fmt.format_f 3 f).

(** The line of the report the source's template gives. *)
Definition report_line (m : InfoMessage.t) : result string :=
  duration ← fmt3 (InfoMessage.duration m);
  distance ← fmt3 (InfoMessage.distance m);
  speed ← fmt3 (InfoMessage.speed m);
  calories ← fmt3 (InfoMessage.calories m);
  Ok ("Тип тренировки: " ++ InfoMessage.training_type m
      ++ "; Длительность: " ++ duration
      ++ " ч.; Дистанция: " ++ distance
      ++ " км; Ср. скорость: " ++ speed
      ++ " км/ч; Потрачено ккал: " ++ calories ++ ".").

(** The computation does not end in [NotImplementedError]. *)
Definition implemented {A} (m : result A) : Prop :=
  forall msg, m <> Raise (NotImplementedError msg).

(** The three workout kinds the dispatcher can build. *)
Definition variants : list class := [Running; SportsWalking; Swimming].

Definition codes : list string := ["SWM"; "RUN"; "WLK"].

Definition unknown_type : exn := ValueError "Неизвестный тип тренировки".

(** The numeric fields of the report, each rendered with [.3f]. *)
Definition report_fields (m : InfoMessage.t) : result (list string) :=
  duration ← fmt3 (InfoMessage.duration m);
  distance ← fmt3 (InfoMessage.distance m);
  speed ← fmt3 (InfoMessage.speed m);
  calories ← fmt3 (InfoMessage.calories m);
  Ok [duration; distance; speed; calories].

(** The line the script prints for one package. *)
Definition printed (libm_pow : float -> float -> float)
    (pkg : string * list num) (line : string) : Prop :=
  exists training m,
    read_package pkg.1 pkg.2 = Ok training
    /\ show_training_info libm_pow training = Ok m
    /\ InfoMessage.get_message m = Ok line.

(** The report has exactly four numeric fields, each in fixed-point
    notation with three digits after the point. *)
Definition fixed_point_report (m : InfoMessage.t) : Prop :=
  exists fs,
    InfoMessage.numeric_fields m = Ok fs
    /\ length fs = 4%nat
    /\ Forall (fun f => Fmt.is_fixed 3 f = true) fs.

(** mean_speed × duration = distance *)
Definition speed_identity (self : training) : Prop :=
  (get_mean_speed self * self∙"duration")%py = get_distance self.

(** The float [t] is the power of two 2^(j+52): positive, with the mantissa
    of 1. *)
Definition power_of_two (t : float) (j : Z) : Prop :=
  Prim2SF t = S754_finite false 4503599627370496 j.

(** Dividing [x] by 2^(j+52) loses no bit: [x] is a zero, an infinity, a
    NaN, or a normal number whose quotient is still a normal number. *)
Definition scales_exactly (x : float) (j : Z) : bool :=
  match Prim2SF x with
  | S754_finite _ m e =>
      (digits2_pos m =? 53)%positive
      && (-1074 <=? e - (j + 52))%Z && (e - (j + 52) <=? 971)%Z
  | _ => true
  end.

(** The Running workout with the given action and duration. *)
Definition running (action duration : Z) : training :=
  instance Running
    [("action", Int action); ("duration", Int duration); ("weight", Int 75)].

(** All the fields of the instance are non-negative. *)
Definition nonneg_fields (self : training) : Prop :=
  Forall (fun kv => Py.ge_zero kv.2 = true) (__dict__ self).

(** Every numeric field of the message is a finite number. *)
Definition finite_num (x : num) : Prop :=
  exists f, Py.to_float x = Ok f /\ is_finite f = true.

Definition finite_fields (m : InfoMessage.t) : Prop :=
  finite_num (InfoMessage.duration m) /\ finite_num (InfoMessage.distance m)
  /\ finite_num (InfoMessage.speed m) /\ finite_num (InfoMessage.calories m).

(** A [pow] that rounds the square correctly, for running the examples. *)
Definition pow_exact (x y : float) : float := (x * x)%float.

(** A standard output that takes every line, as a UTF-8 terminal does. *)
Definition accepting (line : string) : option exn := None.

(** A standard output whose encoding has no Cyrillic: it refuses every
    line. *)
Definition refusing (line : string) : option exn := Some UnicodeEncodeError.

(** The workouts of the packaged data. *)
Definition example_swimming : training :=
  instance Swimming
    [("action", Int 720); ("duration", Int 1); ("weight", Int 80);
     ("length_pool", Int 25); ("count_pool", Int 40)].

Definition example_running : training :=
  instance Running [("action", Int 15000); ("duration", Int 1); ("weight", Int 75)].

Definition example_walking : training :=
  instance SportsWalking
    [("action", Int 9000); ("duration", Int 1); ("weight", Int 75);
     ("height", Int 180)].

(** [x == 0] as the interpreter compares a number with zero. *)
Definition is_zero_num (x : num) : bool :=
  match x with
  | Int z => (z =? 0)%Z
  | Float f => (f =? 0)%float
  end.

(** The exceptions of the arithmetic. *)
Definition arith_error (e : exn) : Prop :=
  e = ZeroDivisionError \/ e = OverflowError.

(** The computation returns or ends in an exception of the arithmetic. *)
Definition arith_only {A} (m : result A) : Prop :=
  forall e, m = Raise e -> arith_error e.

(** The exceptions that can end a run of the script. *)
(** The line [main] hands to [print]. *)
Definition main_line libm_pow (self : training) : result string :=
  m ← show_training_info libm_pow self; InfoMessage.get_message m.

(** The names [getattr] is a model for: the dataclass fields and the
    class constants of the module. *)
Definition data_name (name : string) : Prop :=
  exists k, name ∈ own_fields k \/ is_Some (class_vars k !! name).

(** The kilometres swum, [length_pool * count_pool / M_IN_KM]: the product
    of two ints is an int, and its quotient by the int 1000 is rounded once;
    with a float among them the product is a float already. *)
Definition pool_km (l n : num) : result float :=
  match l, n with
  | Int zl, Int zn => Py.int_true_divide (zl * zn) 1000
  | _, _ => x ← Py.to_float l; y ← Py.to_float n; Ok (x * y / 1000)%float
  end.

Definition script_error (e : exn) : Prop :=
  e = unknown_type \/ e = TypeError \/ arith_error e.

(** The computation, when it returns, returns a float. *)
Definition float_valued (m : result num) : Prop :=
  forall v, m = Ok v -> exists x, v = Float x.

(** The computation ends in an exception. *)
Definition fails {A} (m : result A) : Prop := exists e, m = Raise e.

(** The number a string of digits denotes, read most significant digit
    first; a sign or a point is passed over, so a fixed-point string with
    [p] decimals is read in units of 10^-p. *)
Fixpoint digits_value (acc : Z) (s : string) : Z :=
  match s with
  | "" => acc
  | String c r =>
      if Fmt.is_digit c
      then digits_value (10 * acc + (Z.of_nat (nat_of_ascii c) - 48)) r
      else digits_value acc r
  end.

Definition read_fixed (s : string) : Z := digits_value 0 s.

(** * Properties *)

(** ** Instances *)

Lemma init_inv c args self :
  __init__ c args = Ok self ->
  length args = length (fields c) /\ self = instance c (zip (fields c) args).
Proof.
  unfold __init__. destruct (decide _) as [H|]; [|discriminate].
  by intros [= <-].
Qed.

Lemma instance_shape c self : instance_of c self -> shape c self.
Proof.
  intros [args [Hlen ->]%init_inv].
  destruct c; vm_compute in Hlen;
    repeat (destruct args as [|? args]; try discriminate Hlen);
    simpl; eauto 10.
Qed.

Ltac by_shape H :=
  apply instance_shape in H; simpl in H;
  repeat match type of H with ex _ => destruct H as [? H] end; subst.

(** ** Distance, mean speed *)

Lemma to_float_1000 : Py.to_float (Int 1000) = Ok 1000%float.
Proof. vm_compute. reflexivity. Qed.

Lemma mul_by_float x k :
  Py.mul x (Float k) = (a ← Py.to_float x; Ok (Float (a * k)%float)).
Proof. by destruct x. Qed.

Lemma truediv_by_1000 x : Py.truediv (Float x) (Int 1000) = Ok (Float (x / 1000)%float).
Proof.
  unfold Py.truediv. rewrite to_float_1000. cbn [Py.to_float mbind result_bind].
  unfold Py.float_div. by change (1000 =? 0)%float with false.
Qed.

Lemma truediv_float_by x d :
  Py.truediv (Float x) d
  = (t ← Py.to_float d;
     if (t =? 0)%float then Raise ZeroDivisionError else Ok (Float (x / t)%float)).
Proof.
  unfold Py.truediv. destruct d as [z|f]; cbn [Py.to_float mbind result_bind].
  - destruct (Py.float_of_int z) as [t|]; cbn [mbind result_bind]; [|done].
    unfold Py.float_div. by destruct (t =? 0)%float.
  - unfold Py.float_div. by destruct (f =? 0)%float.
Qed.

Lemma mul_float_by x d :
  Py.mul (Float x) d = (t ← Py.to_float d; Ok (Float (x * t)%float)).
Proof. by destruct d. Qed.

Lemma truediv_pool_km l n :
  (p ← Py.mul l n; Py.truediv p (Int 1000)) = Float <$> pool_km l n.
Proof.
  unfold pool_km, Py.mul.
  destruct l as [zl|x], n as [zn|y]; cbn [Py.to_float mbind result_bind];
    [ reflexivity | | | ].
  - destruct (Py.float_of_int zl) as [x|]; cbn [mbind result_bind fmap result_fmap];
      [apply truediv_by_1000 | reflexivity].
  - destruct (Py.float_of_int zn) as [y|]; cbn [mbind result_bind fmap result_fmap];
      [apply truediv_by_1000 | reflexivity].
  - apply truediv_by_1000.
Qed.

(** C4: for every workout [distance()] is action × step_length / 1000,
    with step length 0.65 for Running and SportsWalking and 1.38 for
    Swimming: it is the binary64 product of the action and the step
    length, divided by 1000, which gives 9.75 km and 5.85 km for the
    packaged run and walk, and 0.9935999999999999 km, the float next
    below 0.9936, for the packaged swim. *)
Theorem get_distance_formula :
  (forall c self,
     instance_of c self ->
     get_distance self = Spec.distance c (self∙"action")
     /\ self∙"LEN_STEP" = Spec.flt (Spec.step_length c)
     /\ (forall a,
           self∙"action" = Ok a ->
           get_distance self
           = (x ← Py.to_float a;
              Ok (Float (x * Spec.step_length c / 1000)%float))))
  /\ Spec.step_length Running = 0.65%float
  /\ Spec.step_length SportsWalking = 0.65%float
  /\ Spec.step_length Swimming = 1.38%float
  /\ (self ← __init__ Running [Int 15000; Int 1; Int 75]; get_distance self)
     = Ok (Float 9.75)
  /\ (self ← __init__ SportsWalking [Int 9000; Int 1; Int 75; Int 180];
      get_distance self)
     = Ok (Float 5.85)
  /\ (self ← __init__ Swimming [Int 720; Int 1; Int 80; Int 25; Int 40];
      get_distance self)
     = Ok (Float 0.9935999999999999)
  /\ (self ← __init__ Running [Float 1234.5; Int 1; Int 75]; get_distance self)
     = Ok (Float 0.802425).
Proof.
  split; [|split_and!; vm_compute; reflexivity].
  intros c self H.
  assert (get_distance self = Spec.distance c (self∙"action")) as E
    by (destruct c; by_shape H; reflexivity).
  split_and!; [done | destruct c; by_shape H; reflexivity |].
  intros a Ha. rewrite E, Ha. unfold Spec.distance, Spec.flt, Spec.int.
  cbn [mbind result_bind]. rewrite mul_by_float.
  destruct (Py.to_float a) as [x|]; cbn [mbind result_bind]; [|done].
  apply truediv_by_1000.
Qed.

(** C5: with a positive duration, [mean_speed()] is distance / duration
    for Running and SportsWalking, and (length_pool × count_pool / 1000) /
    duration for Swimming: the binary64 quotient of the distance, or of
    the kilometres swum, by the duration.  At a duration of 2 hours the
    packaged run gives 4.875 km/h and the packaged swim 0.5 km/h. *)
Theorem get_mean_speed_formula :
  (forall c self,
     instance_of c self ->
     positive_duration self ->
     (c = Running \/ c = SportsWalking ->
      get_mean_speed self = Spec.mean_speed (get_distance self) (self∙"duration")
      /\ (forall a d,
            self∙"action" = Ok a ->
            self∙"duration" = Ok d ->
            get_mean_speed self
            = (x ← Py.to_float a;
               t ← Py.to_float d;
               if (t =? 0)%float then Raise ZeroDivisionError
               else Ok (Float (x * 0.65 / 1000 / t)%float))))
     /\ (c = Swimming ->
         get_mean_speed self
         = Spec.swimming_mean_speed (self∙"length_pool") (self∙"count_pool")
             (self∙"duration")
         /\ (forall l n d,
               self∙"length_pool" = Ok l ->
               self∙"count_pool" = Ok n ->
               self∙"duration" = Ok d ->
               get_mean_speed self
               = (km ← pool_km l n;
                  t ← Py.to_float d;
                  if (t =? 0)%float then Raise ZeroDivisionError
                  else Ok (Float (km / t)%float)))))
  /\ (self ← __init__ Running [Int 15000; Int 2; Int 75]; get_mean_speed self)
     = Ok (Float 4.875)
  /\ (self ← __init__ Running [Int 15000; Int 7; Int 75]; get_mean_speed self)
     = Ok (Float 1.3928571428571428)
  /\ (self ← __init__ SportsWalking [Int 9000; Float 1.5; Int 75; Int 180];
      get_mean_speed self)
     = Ok (Float 3.9)
  /\ (self ← __init__ Swimming [Int 720; Int 2; Int 80; Int 25; Int 40];
      get_mean_speed self)
     = Ok (Float 0.5)
  /\ (self ← __init__ Swimming [Int 720; Int 3; Int 80; Int 50; Int 7];
      get_mean_speed self)
     = Ok (Float 0.11666666666666665)
  /\ (self ← __init__ Swimming [Int 720; Int 2; Int 80; Float 25.5; Int 40];
      get_mean_speed self)
     = Ok (Float 0.51).
Proof.
  split; [|split_and!; vm_compute; reflexivity].
  intros c self H _. split.
  - intros Hc.
    assert (get_mean_speed self
            = Spec.mean_speed (get_distance self) (self∙"duration")) as E
      by (destruct Hc as [-> | ->]; by_shape H; reflexivity).
    split; [done|]. intros a d Ha Hd.
    assert (get_distance self
            = (p ← Py.mul a (Float 0.65); Py.truediv p (Int 1000))) as Ed
      by (destruct Hc as [-> | ->]; by_shape H; vm_compute in Ha;
          by injection Ha as ->).
    rewrite E, Ed, Hd, mul_by_float. unfold Spec.mean_speed.
    destruct (Py.to_float a) as [x|]; cbn [mbind result_bind]; [|done].
    rewrite truediv_by_1000. cbn [mbind result_bind].
    apply truediv_float_by.
  - intros ->.
    assert (get_mean_speed self
            = Spec.swimming_mean_speed (self∙"length_pool") (self∙"count_pool")
                (self∙"duration")) as E
      by (by_shape H; reflexivity).
    split; [done|]. intros l n d Hl Hn Hd.
    rewrite E, Hl, Hn, Hd. unfold Spec.swimming_mean_speed, Spec.int.
    cbn [mbind result_bind].
    pose proof (truediv_pool_km l n) as Hk. cbn [mbind result_bind] in Hk.
    destruct (Py.mul l n) as [p|]; cbn [mbind result_bind] in Hk |- *.
    + rewrite Hk. destruct (pool_km l n) as [km|];
        cbn [mbind result_bind fmap result_fmap]; [|done].
      apply truediv_float_by.
    + by destruct (pool_km l n).
Qed.

(** ** Calories *)


(** C6: for every SportsWalking workout with a positive duration and a
    positive height the calories are
    (0.035 × weight + ((mean_speed × 0.278)² / (height / 100)) × 0.029 × weight)
    × duration × 60; for action 9000, duration 1, weight 75, height 180
    the result is that of the formula at mean speed 5.85, and it is
    rounded to 3 decimals in the output only. *)
Theorem SportsWalking_calories_formula libm_pow :
  (forall self,
     instance_of SportsWalking self ->
     positive_duration self ->
     positive_height self ->
     get_spent_calories libm_pow self
     = Spec.walking_calories libm_pow (get_mean_speed self) (self∙"weight")
         (self∙"height") (self∙"duration"))
  /\ (self ← __init__ SportsWalking [Int 9000; Int 1; Int 75; Int 180];
      get_mean_speed self)
     = Spec.flt 5.85
  /\ (self ← __init__ SportsWalking [Int 9000; Int 1; Int 75; Int 180];
      get_spent_calories libm_pow self)
     = Spec.walking_calories libm_pow (Spec.flt 5.85) (Spec.int 75) (Spec.int 180)
         (Spec.int 1)
  /\ (self ← __init__ SportsWalking [Int 9000; Int 1; Int 75; Int 180];
      get_spent_calories pow_exact self)
     = Spec.flt 349.2517475250001
  /\ fmt3 (Float 349.2517475250001) = Ok "349.252".
Proof.
  split_and!.
  - intros self H _ _. by_shape H. reflexivity.
  - vm_compute. reflexivity.
  - change (__init__ SportsWalking [Int 9000; Int 1; Int 75; Int 180])
      with (Ok (instance SportsWalking
                  [("action", Int 9000); ("duration", Int 1); ("weight", Int 75);
                   ("height", Int 180)])).
    cbn [mbind result_bind].
    match goal with |- get_spent_calories _ ?t = _ => set (self := t) end.
    replace (Spec.flt 5.85) with (get_mean_speed self) by (vm_compute; reflexivity).
    reflexivity.
  - vm_compute. reflexivity.
  - vm_compute. reflexivity.
Qed.


(** ** The abstract method *)

Lemma implemented_ok {A} (a : A) : implemented (Ok a).
Proof. intros msg. discriminate. Qed.

Lemma implemented_bind {A B} (m : result A) (f : A -> result B) :
  implemented m -> (forall a, implemented (f a)) -> implemented (m ≫= f).
Proof.
  intros Hm Hf msg. destruct m as [a|e]; simpl.
  - apply Hf.
  - specialize (Hm msg). congruence.
Qed.

Lemma implemented_fmap {A B} (m : result A) (f : A -> B) :
  implemented m -> implemented (f <$> m).
Proof.
  intros Hm msg. destruct m; simpl; [discriminate|].
  specialize (Hm msg). congruence.
Qed.

Lemma implemented_float_of_SF s : implemented (Py.float_of_SF s).
Proof. intros msg. destruct s; discriminate. Qed.

Lemma implemented_to_float x : implemented (Py.to_float x).
Proof. destruct x; [apply implemented_float_of_SF | apply implemented_ok]. Qed.

Lemma implemented_int_true_divide a b : implemented (Py.int_true_divide a b).
Proof.
  intros msg. unfold Py.int_true_divide.
  destruct (b =? 0)%Z; [discriminate|].
  destruct (a =? 0)%Z; [discriminate|].
  destruct (SFdiv_core_binary _ _ _ _ _ _) as [[q e] l].
  apply implemented_float_of_SF.
Qed.

Lemma implemented_float_div x y : implemented (Py.float_div x y).
Proof. intros msg. unfold Py.float_div. destruct (_ =? _)%float; discriminate. Qed.

Lemma implemented_float_pow2 libm_pow x : implemented (Py.float_pow2 libm_pow x).
Proof.
  intros msg. unfold Py.float_pow2.
  repeat match goal with |- context [if ?b then _ else _] => destruct b end;
    discriminate.
Qed.

Create HintDb implemented.
#[local] Hint Resolve implemented_ok implemented_to_float implemented_int_true_divide
  implemented_float_div implemented_float_pow2 implemented_fmap : implemented.

Ltac implemented_steps :=
  repeat first
    [ apply implemented_bind; [|intros ?]
    | solve [auto with implemented] ].

Lemma implemented_mul x y : implemented (Py.mul x y).
Proof. unfold Py.mul. destruct x, y; implemented_steps. Qed.

Lemma implemented_add x y : implemented (Py.add x y).
Proof. unfold Py.add. destruct x, y; implemented_steps. Qed.

Lemma implemented_truediv x y : implemented (Py.truediv x y).
Proof. unfold Py.truediv. destruct x, y; implemented_steps. Qed.

Lemma implemented_pow2 libm_pow x : implemented (Py.pow2 libm_pow x).
Proof. unfold Py.pow2. destruct x; implemented_steps. Qed.

Lemma implemented_getattr self name : implemented (self∙name).
Proof.
  intros msg. unfold getattr.
  destruct (_ !! name); [discriminate|].
  destruct (class_getattr _ _); discriminate.
Qed.

#[local] Hint Resolve implemented_mul implemented_add implemented_truediv
  implemented_pow2 implemented_getattr : implemented.

Lemma implemented_get_distance self : implemented (get_distance self).
Proof.
  unfold get_distance.
  destruct (resolve _ _) as [[]|]; try (intros ?; discriminate).
  unfold Training_get_distance. implemented_steps.
Qed.

#[local] Hint Resolve implemented_get_distance : implemented.

Lemma implemented_get_mean_speed self : implemented (get_mean_speed self).
Proof.
  unfold get_mean_speed.
  destruct (resolve _ _) as [[]|]; try (intros ?; discriminate).
  - unfold Training_get_mean_speed. implemented_steps.
  - unfold Swimming_get_mean_speed. implemented_steps.
Qed.

#[local] Hint Resolve implemented_get_mean_speed : implemented.

Lemma resolve_get_spent_calories c : resolve c "get_spent_calories" = Some c.
Proof. destruct c; vm_compute; reflexivity. Qed.

(** C9: the base class's [get_spent_calories] raises
    [NotImplementedError]; Running, SportsWalking and Swimming each
    override it, and on their instances the base implementation is
    never reached. *)
Theorem get_spent_calories_overridden libm_pow :
  (forall self,
     Training_get_spent_calories self
     = Raise (NotImplementedError "Метод будет реализован в дочерних классах"))
  /\ (forall self,
        instance_of Training self ->
        get_spent_calories libm_pow self = Training_get_spent_calories self)
  /\ (forall c,
        c ∈ variants ->
        bool_decide ("get_spent_calories" ∈ own_methods c) = true
        /\ resolve c "get_spent_calories" = Some c
        /\ resolve c "get_spent_calories" <> Some Training)
  /\ (forall c self,
        c ∈ variants ->
        instance_of c self ->
        implemented (get_spent_calories libm_pow self)).
Proof.
  split_and!.
  - reflexivity.
  - intros self H. by_shape H. reflexivity.
  - intros c Hc. rewrite resolve_get_spent_calories.
    unfold variants in Hc. rewrite !elem_of_cons, elem_of_nil in Hc.
    destruct Hc as [-> | [-> | [-> | []]]]; split_and!; done.
  - intros c self Hc H.
    unfold variants in Hc. rewrite !elem_of_cons, elem_of_nil in Hc.
    unfold get_spent_calories.
    assert (__class__ self = c) as -> by (destruct c; by_shape H; reflexivity).
    rewrite resolve_get_spent_calories.
    destruct Hc as [-> | [-> | [-> | []]]].
    + unfold Running_get_spent_calories. implemented_steps.
    + unfold SportsWalking_get_spent_calories, pow_2. implemented_steps.
    + unfold Swimming_get_spent_calories. implemented_steps.
Qed.

(** ** The dispatcher *)

Lemma WORKOUT_TYPES_unknown code : code ∉ codes -> WORKOUT_TYPES !! code = None.
Proof.
  unfold codes. rewrite !not_elem_of_cons. intros (? & ? & ? & _).
  unfold WORKOUT_TYPES. by simplify_map_eq.
Qed.

Lemma read_package_known code c data :
  WORKOUT_TYPES !! code = Some c -> read_package code data = __init__ c data.
Proof.
  intros H. unfold read_package.
  rewrite bool_decide_eq_true_2 by (apply elem_of_dom; eauto).
  by rewrite H.
Qed.

Lemma read_package_unknown code data :
  code ∉ codes -> read_package code data = Raise unknown_type.
Proof.
  intros H%WORKOUT_TYPES_unknown. unfold read_package.
  rewrite bool_decide_eq_false_2; [done|].
  rewrite elem_of_dom, H. by intros [? ?].
Qed.

Lemma init_arity c data :
  length data = length (fields c) ->
  exists self, __init__ c data = Ok self /\ __class__ self = c.
Proof.
  intros H. unfold __init__. rewrite decide_True by done. eauto.
Qed.

(** C2 as stated fails: with an empty data sequence the code "SWM" does
    not give a Swimming instance, the constructor call raises
    [TypeError]. *)
Lemma read_package_arity_counterexample :
  read_package "SWM" [] = Raise TypeError
  /\ ~ exists self, read_package "SWM" [] = Ok self /\ __class__ self = Swimming.
Proof.
  assert (read_package "SWM" [] = Raise TypeError) as H by (vm_compute; reflexivity).
  split; [done|]. intros (self & Hs & _). congruence.
Qed.

(** C2, amended: for a data sequence with one value per field,
    [read_package] returns a Swimming instance for "SWM", a Running
    instance for "RUN" and a SportsWalking instance for "WLK"; with
    another number of values the constructor call raises [TypeError];
    for every other code it raises the unknown-type [ValueError]
    whatever the data, and the script does not recover from it: the
    run ends there with that exception. *)
Theorem read_package_dispatch :
  (forall data, length data = 5%nat ->
     exists self, read_package "SWM" data = Ok self /\ __class__ self = Swimming)
  /\ (forall data, length data = 3%nat ->
        exists self, read_package "RUN" data = Ok self /\ __class__ self = Running)
  /\ (forall data, length data = 4%nat ->
        exists self, read_package "WLK" data = Ok self /\ __class__ self = SportsWalking)
  /\ (forall code c data,
        WORKOUT_TYPES !! code = Some c ->
        length data <> length (fields c) ->
        read_package code data = Raise TypeError)
  /\ (forall code data,
        code ∉ codes -> read_package code data = Raise unknown_type)
  /\ (forall libm_pow write_error code data rest out,
        code ∉ codes ->
        run libm_pow write_error ((code, data) :: rest) out
        = (out, Some unknown_type)).
Proof.
  split_and!.
  - intros data H. rewrite (read_package_known _ Swimming) by done.
    by apply init_arity.
  - intros data H. rewrite (read_package_known _ Running) by done.
    by apply init_arity.
  - intros data H. rewrite (read_package_known _ SportsWalking) by done.
    by apply init_arity.
  - intros code c data Hc H. rewrite (read_package_known _ c) by done.
    unfold __init__. by rewrite decide_False.
  - apply read_package_unknown.
  - intros libm_pow write_error code data rest out H. simpl.
    by rewrite read_package_unknown.
Qed.

(** ** The report *)

Lemma asdict_training_type m :
  InfoMessage.asdict m !! "training_type" = Some (Fmt.VStr (InfoMessage.training_type m)).
Proof. destruct m. vm_compute. reflexivity. Qed.

Lemma asdict_duration m :
  InfoMessage.asdict m !! "duration" = Some (Fmt.VNum (InfoMessage.duration m)).
Proof. destruct m. vm_compute. reflexivity. Qed.

Lemma asdict_distance m :
  InfoMessage.asdict m !! "distance" = Some (Fmt.VNum (InfoMessage.distance m)).
Proof. destruct m. vm_compute. reflexivity. Qed.

Lemma asdict_speed m :
  InfoMessage.asdict m !! "speed" = Some (Fmt.VNum (InfoMessage.speed m)).
Proof. destruct m. vm_compute. reflexivity. Qed.

Lemma asdict_calories m :
  InfoMessage.asdict m !! "calories" = Some (Fmt.VNum (InfoMessage.calories m)).
Proof. destruct m. vm_compute. reflexivity. Qed.

Lemma format_value_3f x : Fmt.format_value (Fmt.VNum x) ".3f" = fmt3 x.
Proof. reflexivity. Qed.

Lemma format_value_str s : Fmt.format_value (Fmt.VStr s) "" = Ok s.
Proof. reflexivity. Qed.

Ltac parse_MESSAGE :=
  let segs := eval vm_compute in (Fmt.parse Fmt.Text InfoMessage.MESSAGE) in
  change (Fmt.parse Fmt.Text InfoMessage.MESSAGE) with segs.

Ltac lookup_fields :=
  rewrite ?asdict_training_type, ?asdict_duration, ?asdict_distance,
    ?asdict_speed, ?asdict_calories, ?format_value_3f, ?format_value_str.

Lemma get_message_report_line m : InfoMessage.get_message m = report_line m.
Proof.
  unfold InfoMessage.get_message, Fmt.format, report_line.
  parse_MESSAGE. cbn [Fmt.render]. lookup_fields.
  destruct (fmt3 (InfoMessage.duration m)); [|reflexivity].
  destruct (fmt3 (InfoMessage.distance m)); [|reflexivity].
  destruct (fmt3 (InfoMessage.speed m)); [|reflexivity].
  destruct (fmt3 (InfoMessage.calories m)); reflexivity.
Qed.

Lemma numeric_fields_report_fields m : InfoMessage.numeric_fields m = report_fields m.
Proof.
  unfold InfoMessage.numeric_fields, report_fields.
  parse_MESSAGE. cbn [Fmt.render_numeric]. lookup_fields.
  destruct (fmt3 (InfoMessage.duration m)); [|reflexivity].
  destruct (fmt3 (InfoMessage.distance m)); [|reflexivity].
  destruct (fmt3 (InfoMessage.speed m)); [|reflexivity].
  destruct (fmt3 (InfoMessage.calories m)); reflexivity.
Qed.

Lemma run_prints libm_pow write_error pkgs :
  forall out out',
    run libm_pow write_error pkgs out = (out', None) ->
    exists lines,
      out' = (out ++ lines)%list /\ Forall2 (printed libm_pow) pkgs lines.
Proof.
  induction pkgs as [|[workout_type data] rest IH]; intros out out' H;
    cbn [run] in H.
  - injection H as <-. exists []. by rewrite app_nil_r.
  - destruct (read_package workout_type data) as [training|] eqn:Hr;
      cbn [mbind result_bind] in H; [|discriminate].
    unfold main in H.
    destruct (show_training_info libm_pow training) as [m|] eqn:Hs;
      cbn [mbind result_bind] in H; [|discriminate].
    destruct (InfoMessage.get_message m) as [line|] eqn:Hm;
      cbn [mbind result_bind] in H; [|discriminate].
    unfold print in H.
    destruct (write_error line); [discriminate|].
    apply IH in H as (lines & -> & Hl).
    exists (line :: lines). split.
    + by rewrite <- app_assoc.
    + constructor; [|done]. by exists training, m.
Qed.

(** C1 as stated fails: the report of the packaged Running workout is not
    the line the English template of the specification gives. *)
Lemma report_template_counterexample :
  exists training m,
    read_package "RUN" [Int 15000; Int 1; Int 75] = Ok training
    /\ show_training_info pow_exact training = Ok m
    /\ Spec.report m
       = Ok ("Workout type: Running; Duration: 1.000 h; Distance: 9.750 km; "
             ++ "Avg speed: 9.750 km/h; Calories: 797.805.")
    /\ InfoMessage.get_message m
       = Ok ("Тип тренировки: Running; Длительность: 1.000 ч.; "
             ++ "Дистанция: 9.750 км; Ср. скорость: 9.750 км/ч; "
             ++ "Потрачено ккал: 797.805.")
    /\ InfoMessage.get_message m <> Spec.report m.
Proof.
  eexists _, _. split_and!.
  - vm_compute. reflexivity.
  - vm_compute. reflexivity.
  - vm_compute. reflexivity.
  - vm_compute. reflexivity.
  - intros H. vm_compute in H. discriminate H.
Qed.

(** C1, amended: the report formatter produces exactly the template
    "Тип тренировки: {training_type}; Длительность: {duration:.3f} ч.;
    Дистанция: {distance:.3f} км; Ср. скорость: {speed:.3f} км/ч;
    Потрачено ккал: {calories:.3f}." with the values substituted, and a run
    that ends without an exception has printed one such line per input
    pair, in order. *)
Theorem report_template :
  (forall m, InfoMessage.get_message m = report_line m)
  /\ (forall libm_pow write_error pkgs out out',
        run libm_pow write_error pkgs out = (out', None) ->
        exists lines,
          out' = (out ++ lines)%list
          /\ length lines = length pkgs
          /\ Forall2 (printed libm_pow) pkgs lines).
Proof.
  split.
  - apply get_message_report_line.
  - intros libm_pow write_error pkgs out out' (lines & -> & H)%run_prints.
    exists lines. split_and!; [done| |done].
    symmetry. by eapply Forall2_length.
Qed.

(** ** Fixed-point notation *)

Lemma is_digit_digit n : Fmt.is_digit (Fmt.digit n) = true.
Proof.
  unfold Fmt.digit.
  assert (Z.to_nat (n mod 10) < 10)%nat as H
    by (pose proof (Z.mod_pos_bound n 10); lia).
  destruct (Z.to_nat (n mod 10)) as [|k]; [reflexivity|].
  do 9 (destruct k as [|k]; [reflexivity|]). lia.
Qed.

Lemma all_digits_app a b :
  Fmt.all_digits (a ++ b) = Fmt.all_digits a && Fmt.all_digits b.
Proof.
  induction a as [|c a IH]; simpl; [done|].
  rewrite IH. by destruct (Fmt.is_digit c).
Qed.

Lemma length_app_string (a b : string) :
  String.length (a ++ b) = (String.length a + String.length b)%nat.
Proof. induction a as [|c a IH]; simpl; [done|]. by rewrite IH. Qed.

Lemma frac_digits_spec p :
  forall n,
    Fmt.all_digits (Fmt.frac_digits p n) = true
    /\ String.length (Fmt.frac_digits p n) = p.
Proof.
  induction p as [|p IH]; intros n; cbn [Fmt.frac_digits]; [done|].
  destruct (IH (n / 10)%Z) as [Ha Hl].
  rewrite all_digits_app, length_app_string, Ha, Hl.
  cbn [Fmt.all_digits String.length].
  rewrite is_digit_digit. split; [done | lia].
Qed.

Lemma all_digits_uint d : Fmt.all_digits (NilEmpty.string_of_uint d) = true.
Proof. induction d; simpl; done. Qed.

Lemma int_digits_spec n :
  Fmt.all_digits (Fmt.int_digits n) = true /\ Fmt.int_digits n <> "".
Proof.
  unfold Fmt.int_digits, NilZero.string_of_uint.
  destruct (N.to_uint (Z.to_N n)) eqn:E; simpl;
    try (split; [apply all_digits_uint | discriminate]); done.
Qed.

Lemma span_digits_point ds r :
  Fmt.all_digits ds = true ->
  Fmt.span_digits (ds ++ String "." r) = (ds, String "." r).
Proof.
  induction ds as [|c ds IH]; simpl; [done|].
  destruct (Fmt.is_digit c); [|done]. intros H. by rewrite IH.
Qed.

Lemma digit_not_minus c : Fmt.is_digit c = true -> (c =? "-")%char = false.
Proof.
  destruct c as [[] [] [] [] [] [] [] []]; try reflexivity; discriminate.
Qed.

Lemma strip_sign_digits s ds r :
  Fmt.all_digits ds = true -> ds <> "" ->
  Fmt.strip_sign (Fmt.sign s ++ ds ++ r) = ds ++ r.
Proof.
  intros Ha Hne. destruct ds as [|c ds]; [done|]. simpl in Ha.
  apply andb_true_iff in Ha as [Hc%digit_not_minus _].
  destruct s; simpl; [done|]. by rewrite Hc.
Qed.

Lemma fixed_is_fixed s p n :
  Fmt.is_fixed (S p) (Fmt.sign s ++ Fmt.fixed (S p) n) = true.
Proof.
  unfold Fmt.is_fixed, Fmt.fixed.
  destruct (int_digits_spec (n / 10 ^ Z.of_nat (S p))) as [Ha Hne].
  destruct (frac_digits_spec (S p) n) as [Hf Hl].
  rewrite strip_sign_digits by done.
  change ("." ++ ?f) with (String "." f).
  rewrite span_digits_point by done.
  rewrite Hf, Hl, Nat.eqb_refl.
  destruct (Fmt.int_digits _); done.
Qed.

Lemma Prim2SF_finite x :
  is_finite x = true ->
  (exists s, Prim2SF x = S754_zero s) \/ (exists s m e, Prim2SF x = S754_finite s m e).
Proof.
  unfold is_finite, Prim2SF.
  destruct (is_nan x); [discriminate|].
  destruct (is_infinity x); [discriminate|]. intros _.
  destruct (is_zero x); [eauto|].
  destruct (Z.frexp x) as [r ex].
  destruct (shr_fexp _ _ _ _ _) as [mrs e'].
  destruct (shr_m mrs); eauto.
Qed.

Lemma format_f_fixed p x :
  is_finite x = true -> Fmt.is_fixed (S p) (Fmt.format_f (S p) x) = true.
Proof.
  intros [[s H] | (s & m & e & H)]%Prim2SF_finite;
    unfold Fmt.format_f; rewrite H; apply fixed_is_fixed.
Qed.

Lemma fmt3_fixed x :
  finite_num x -> exists s, fmt3 x = Ok s /\ Fmt.is_fixed 3 s = true.
Proof.
  intros (f & Hf & Hfin). unfold fmt3. rewrite Hf.
  eexists. split; [reflexivity|]. by apply format_f_fixed.
Qed.

(** C8 as stated fails: a Running workout with weight 10^308 has infinite
    calories, and the report renders them as [inf]. *)
Lemma report_fixed_point_counterexample :
  exists training m,
    read_package "RUN" [Int 15000; Int 1; Int (10 ^ 308)] = Ok training
    /\ show_training_info pow_exact training = Ok m
    /\ InfoMessage.numeric_fields m = Ok ["1.000"; "9.750"; "9.750"; "inf"]
    /\ Fmt.is_fixed 3 "inf" = false
    /\ ~ fixed_point_report m.
Proof.
  eexists _, _. split_and!.
  - vm_compute. reflexivity.
  - vm_compute. reflexivity.
  - vm_compute. reflexivity.
  - reflexivity.
  - intros (fs & Hfs & _ & Hall). vm_compute in Hfs. injection Hfs as <-.
    rewrite !Forall_cons in Hall. destruct Hall as (_ & _ & _ & Hinf & _).
    vm_compute in Hinf. discriminate Hinf.
Qed.

(** C8, amended: for every workout whose duration, distance, speed and
    calories are finite, the report has exactly 4 numeric fields and each
    is rendered in fixed-point notation with exactly 3 digits after the
    decimal point, whatever its magnitude or sign. *)
Theorem report_fixed_point libm_pow training m :
  show_training_info libm_pow training = Ok m ->
  finite_fields m ->
  fixed_point_report m
  /\ exists duration distance speed calories,
       InfoMessage.get_message m
       = Ok ("Тип тренировки: " ++ InfoMessage.training_type m
             ++ "; Длительность: " ++ duration
             ++ " ч.; Дистанция: " ++ distance
             ++ " км; Ср. скорость: " ++ speed
             ++ " км/ч; Потрачено ккал: " ++ calories ++ ".")
       /\ Forall (fun f => Fmt.is_fixed 3 f = true)
            [duration; distance; speed; calories].
Proof.
  intros _ (H1 & H2 & H3 & H4).
  apply fmt3_fixed in H1 as (f1 & E1 & F1), H2 as (f2 & E2 & F2),
    H3 as (f3 & E3 & F3), H4 as (f4 & E4 & F4).
  split.
  - exists [f1; f2; f3; f4].
    rewrite numeric_fields_report_fields. unfold report_fields.
    rewrite E1, E2, E3, E4. split_and!; [done..|].
    by repeat constructor.
  - exists f1, f2, f3, f4.
    rewrite get_message_report_line. unfold report_line.
    rewrite E1, E2, E3, E4. split; [done|].
    by repeat constructor.
Qed.

(** ** Division and multiplication by one in binary64 *)

Section Binary64.

Local Open Scope Z_scope.

Lemma iter_pos_iter {A} (f : A -> A) n : forall x, SpecFloat.iter_pos f n x = Pos.iter f x n.
Proof.
  induction n as [n IH|n IH|]; intros x; simpl; rewrite ?IH; [|done..].
  by rewrite <- !Pos.iter_swap.
Qed.

Lemma shr_1_double m :
  shr_1 (Build_shr_record (Z.pos m~0) false false) = Build_shr_record (Z.pos m) false false.
Proof. reflexivity. Qed.

Lemma shr_iter_double m k :
  SpecFloat.iter_pos shr_1 k (Build_shr_record (Z.pos (Pos.iter xO m k)) false false)
  = Build_shr_record (Z.pos m) false false.
Proof.
  rewrite iter_pos_iter. induction k as [|k IH] using Pos.peano_ind.
  - reflexivity.
  - rewrite (Pos.iter_succ_r k _ shr_1), (Pos.iter_succ k _ xO), shr_1_double.
    apply IH.
Qed.

Lemma digits2_iter_double m k :
  digits2_pos (Pos.iter xO m k) = (digits2_pos m + k)%positive.
Proof.
  induction k as [|k IH] using Pos.peano_ind.
  - simpl. lia.
  - rewrite Pos.iter_succ. simpl. rewrite IH. lia.
Qed.

Lemma bounded_inv m e :
  bounded prec emax m e = true ->
  Z.max (Z.pos (digits2_pos m) + e - 53) (-1074) = e /\ e <= 971.
Proof.
  unfold bounded, canonical_mantissa, fexp, SpecFloat.emin, prec, emax.
  intros [H1 H2]%andb_true_iff. lia.
Qed.

(** Rounding a mantissa that carries [k] extra zero bits gives the float back. *)
Lemma round_shifted s m e k :
  bounded prec emax m e = true ->
  binary_round_aux prec emax s (Z.pos (Pos.iter xO m k)) (e - Z.pos k) loc_Exact
  = S754_finite s m e.
Proof.
  intros [Hc He]%bounded_inv.
  unfold binary_round_aux, shr_fexp. cbn [Zdigits2 shr_record_of_loc].
  rewrite digits2_iter_double.
  replace (fexp prec emax (Z.pos (digits2_pos m + k) + (e - Z.pos k)) - (e - Z.pos k))
    with (Z.pos k)
    by (unfold fexp, SpecFloat.emin, prec, emax; lia).
  cbn [shr]. rewrite shr_iter_double.
  cbn [shr_m loc_of_shr_record round_nearest_even Zdigits2].
  replace (e - Z.pos k + Z.pos k) with e by lia.
  replace (fexp prec emax (Z.pos (digits2_pos m) + e) - e) with 0
    by (unfold fexp, SpecFloat.emin, prec, emax; lia).
  cbn [shr shr_m].
  unfold prec, emax. by rewrite Zle_imp_le_bool by lia.
Qed.

Lemma round_exact s m e :
  bounded prec emax m e = true ->
  binary_round_aux prec emax s (Z.pos m) e loc_Exact = S754_finite s m e.
Proof.
  intros [Hc He]%bounded_inv.
  unfold binary_round_aux, shr_fexp. cbn [Zdigits2 shr_record_of_loc].
  replace (fexp prec emax (Z.pos (digits2_pos m) + e) - e) with 0
    by (unfold fexp, SpecFloat.emin, prec, emax; lia).
  cbn [shr shr_m loc_of_shr_record round_nearest_even Zdigits2].
  replace (fexp prec emax (Z.pos (digits2_pos m) + e) - e) with 0
    by (unfold fexp, SpecFloat.emin, prec, emax; lia).
  cbn [shr shr_m].
  unfold prec, emax. by rewrite Zle_imp_le_bool by lia.
Qed.

Lemma Prim2SF_one : Prim2SF 1 = S754_finite false 4503599627370496 (-52).
Proof. vm_compute. reflexivity. Qed.

Lemma SFmul_one x :
  valid_binary x = true ->
  SF64mul x (S754_finite false 4503599627370496 (-52)) = x.
Proof.
  destruct x as [s|s| |s m e]; intros H; unfold SF64mul, SFmul;
    rewrite ?xorb_false_r; try reflexivity.
  replace (Z.pos (m * 4503599627370496)) with (Z.pos (Pos.iter xO m 52))
    by (rewrite Pos.mul_comm; reflexivity).
  change (e + -52) with (e - Z.pos 52).
  by apply round_shifted.
Qed.

Lemma div_eucl_mul a b : 0 < b -> Z.div_eucl (a * b) b = (a, 0).
Proof.
  intros Hb. pose proof (Z_div_mod (a * b) b ltac:(lia)) as H.
  destruct (Z.div_eucl (a * b) b) as [q r]. destruct H as [H1 H2].
  assert (q = a) by nia. subst. f_equal. lia.
Qed.

Lemma SFdiv_core_one m e :
  bounded prec emax m e = true ->
  SFdiv_core_binary prec emax (Z.pos m) e 4503599627370496 (-52) = (Z.pos m, e, loc_Exact)
  \/ SFdiv_core_binary prec emax (Z.pos m) e 4503599627370496 (-52)
     = (Z.pos m~0, e - 1, loc_Exact).
Proof.
  intros [Hc He]%bounded_inv.
  unfold SFdiv_core_binary. cbn [Zdigits2].
  change (digits2_pos 4503599627370496) with 53%positive.
  unfold fexp, SpecFloat.emin, prec, emax.
  set (e' := Z.min _ _).
  assert (e' = e \/ e' = e - 1) as [-> | ->] by (subst e'; lia).
  - left. replace (e - -52 - e) with 52 by lia.
    rewrite Z.shiftl_mul_pow2 by lia.
    change (2 ^ 52) with 4503599627370496.
    by rewrite div_eucl_mul.
  - right. replace (e - -52 - (e - 1)) with 53 by lia.
    rewrite Z.shiftl_mul_pow2 by lia.
    replace (Z.pos m * 2 ^ 53) with (Z.pos m~0 * 4503599627370496) by lia.
    by rewrite div_eucl_mul.
Qed.

Lemma SFdiv_one x :
  valid_binary x = true ->
  SF64div x (S754_finite false 4503599627370496 (-52)) = x.
Proof.
  destruct x as [s|s| |s m e]; intros H; unfold SF64div, SFdiv;
    rewrite ?xorb_false_r; try reflexivity.
  destruct (SFdiv_core_one m e H) as [-> | ->].
  - by apply round_exact.
  - by apply (round_shifted s m e 1).
Qed.

Lemma float_mul_one x : (x * 1)%float = x.
Proof.
  apply Prim2SF_inj. rewrite mul_spec, Prim2SF_one.
  apply SFmul_one, Prim2SF_valid.
Qed.

Lemma float_div_one x : (x / 1)%float = x.
Proof.
  apply Prim2SF_inj. rewrite div_spec, Prim2SF_one.
  apply SFdiv_one, Prim2SF_valid.
Qed.

Lemma bounded_normal m e :
  digits2_pos m = 53%positive -> -1074 <= e <= 971 ->
  bounded prec emax m e = true.
Proof.
  intros Hd He. unfold bounded, canonical_mantissa, fexp, SpecFloat.emin, prec, emax.
  rewrite Hd. apply andb_true_iff. split; lia.
Qed.

Lemma SFdiv_core_pow2 m e j :
  digits2_pos m = 53%positive ->
  -1074 <= e - (j + 52) ->
  SFdiv_core_binary prec emax (Z.pos m) e 4503599627370496 j
  = (Z.pos m, e - (j + 52), loc_Exact)
  \/ SFdiv_core_binary prec emax (Z.pos m) e 4503599627370496 j
     = (Z.pos m~0, e - (j + 52) - 1, loc_Exact).
Proof.
  intros Hd He.
  unfold SFdiv_core_binary. cbn [Zdigits2]. rewrite Hd.
  change (digits2_pos 4503599627370496) with 53%positive.
  unfold fexp, SpecFloat.emin, prec, emax.
  set (e' := Z.min _ _).
  assert (e' = e - (j + 52) \/ e' = e - (j + 52) - 1) as [-> | ->]
    by (subst e'; lia).
  - left. replace (e - j - (e - (j + 52))) with 52 by lia.
    rewrite Z.shiftl_mul_pow2 by lia.
    change (2 ^ 52) with 4503599627370496.
    by rewrite div_eucl_mul.
  - right. replace (e - j - (e - (j + 52) - 1)) with 53 by lia.
    rewrite Z.shiftl_mul_pow2 by lia.
    replace (Z.pos m * 2 ^ 53) with (Z.pos m~0 * 4503599627370496) by lia.
    by rewrite div_eucl_mul.
Qed.

(** Dividing a normal number by a power of two only moves its exponent. *)
Lemma SFdiv_pow2 s m e j :
  digits2_pos m = 53%positive ->
  -1074 <= e - (j + 52) <= 971 ->
  SF64div (S754_finite s m e) (S754_finite false 4503599627370496 j)
  = S754_finite s m (e - (j + 52)).
Proof.
  intros Hd He. unfold SF64div, SFdiv. rewrite xorb_false_r.
  pose proof (bounded_normal m (e - (j + 52)) Hd He) as Hb.
  destruct (SFdiv_core_pow2 m e j Hd ltac:(lia)) as [-> | ->].
  - by apply round_exact.
  - by apply (round_shifted s m (e - (j + 52)) 1).
Qed.

Lemma SFmul_pow2 s m e j :
  bounded prec emax m e = true ->
  SF64mul (S754_finite s m (e - (j + 52))) (S754_finite false 4503599627370496 j)
  = S754_finite s m e.
Proof.
  intros Hb. unfold SF64mul, SFmul. rewrite xorb_false_r.
  replace (Z.pos (m * 4503599627370496)) with (Z.pos (Pos.iter xO m 52))
    by (rewrite Pos.mul_comm; reflexivity).
  replace (e - (j + 52) + j) with (e - Z.pos 52) by lia.
  by apply round_shifted.
Qed.

Lemma float_div_mul_pow2 x t j :
  power_of_two t j -> scales_exactly x j = true -> (x / t * t)%float = x.
Proof.
  unfold power_of_two, scales_exactly. intros Ht Hx.
  apply Prim2SF_inj. rewrite mul_spec, div_spec, Ht.
  pose proof (Prim2SF_valid x) as Hv.
  destruct (Prim2SF x) as [s|s| |s m e].
  - unfold SF64div, SFdiv, SF64mul, SFmul. by rewrite !xorb_false_r.
  - unfold SF64div, SFdiv, SF64mul, SFmul. by rewrite !xorb_false_r.
  - reflexivity.
  - apply andb_true_iff in Hx as [[Hd%Pos.eqb_eq H1%Z.leb_le]%andb_true_iff H2%Z.leb_le].
    rewrite SFdiv_pow2 by (done || lia).
    by apply SFmul_pow2.
Qed.

End Binary64.

(** ** Mean speed and distance *)

Lemma to_float_one : Py.to_float (Int 1) = Ok 1%float.
Proof. vm_compute. reflexivity. Qed.

Lemma float_div_by_one x : Py.float_div x 1 = Ok x.
Proof.
  unfold Py.float_div. change (1 =? 0)%float with false.
  by rewrite float_div_one.
Qed.

Lemma truediv_by_one x d :
  d = Int 1 \/ d = Float 1 -> Py.truediv (Float x) d = Ok (Float x).
Proof.
  intros [-> | ->]; unfold Py.truediv; rewrite ?to_float_one;
    cbn [Py.to_float mbind result_bind]; by rewrite float_div_by_one.
Qed.

Lemma mul_by_one x d :
  d = Int 1 \/ d = Float 1 -> Py.mul (Float x) d = Ok (Float x).
Proof.
  intros [-> | ->]; unfold Py.mul; rewrite ?to_float_one;
    cbn [Py.to_float mbind result_bind]; by rewrite float_mul_one.
Qed.

Lemma truediv_mul_one x d :
  d = Int 1 \/ d = Float 1 ->
  (Ok (Float x) / Ok d * Ok d)%py = Ok (Float x).
Proof.
  intros H. cbn [mbind result_bind].
  rewrite truediv_by_one by done. cbn [mbind result_bind].
  by apply mul_by_one.
Qed.

Lemma truediv_float x y v : Py.truediv x y = Ok v -> exists f, v = Float f.
Proof.
  unfold Py.truediv. intros H.
  assert (forall m : result float, Float <$> m = Ok v -> exists f, v = Float f)
    as Hm by (intros [f|e] [=]; eauto).
  destruct x, y; cbn [Py.to_float mbind result_bind] in H; eauto;
    repeat match type of H with
           | context [Py.float_of_int ?z] =>
               destruct (Py.float_of_int z); cbn [mbind result_bind] in H;
               [|discriminate]
           end; eauto.
Qed.

Lemma get_distance_float self v : get_distance self = Ok v -> exists f, v = Float f.
Proof.
  unfold get_distance. destruct (resolve _ _) as [[]|]; try discriminate.
  unfold Training_get_distance.
  destruct (_ * _)%py as [p|]; cbn [mbind result_bind]; [|discriminate].
  destruct (self∙"M_IN_KM"); cbn [mbind result_bind]; [|discriminate].
  apply truediv_float.
Qed.

(** C10 as stated fails: for the Running workout with action 3 and
    duration 3 the product of mean speed and duration is not the
    distance, the quotient and the product are rounded. *)
Lemma speed_identity_counterexample :
  exists self,
    __init__ Running [Int 3; Int 3; Int 75] = Ok self
    /\ positive_duration self
    /\ get_distance self = Ok (Float 0.0019500000000000001)
    /\ (get_mean_speed self * self∙"duration")%py = Ok (Float 0.0019500000000000003)
    /\ ~ speed_identity self.
Proof.
  eexists. split_and!.
  - vm_compute. reflexivity.
  - exists (Int 3). split; vm_compute; reflexivity.
  - vm_compute. reflexivity.
  - vm_compute. reflexivity.
  - intros H.
    apply (f_equal (fun r => match r with
                             | Ok (Float f) => Prim2SF f
                             | _ => S754_nan
                             end)) in H.
    vm_compute in H. discriminate H.
Qed.

Lemma speed_identity_concrete self x y :
  get_distance self = Ok (Float x) ->
  (get_mean_speed self * self∙"duration")%py = Ok (Float y) ->
  speed_identity self <-> y = x.
Proof.
  intros Hx Hy. unfold speed_identity. rewrite Hx, Hy. split.
  - intros H.
    by apply (f_equal (fun r => match r with
                                | Ok (Float f) => f
                                | _ => PrimFloat.zero
                                end)) in H.
  - by intros ->.
Qed.

(** C10, amended: for every Running or SportsWalking workout
    [mean_speed()] is the binary64 quotient distance / duration, and
    mean_speed × duration is the binary64 product of that quotient and the
    duration.  So mean_speed × duration = distance holds exactly when
    dividing the distance by the duration and multiplying back gives the
    distance again.  It does when the duration is 1, as in the packaged
    data, and when the duration is a power of two and the distance and
    its quotient are normal numbers; it does for the action 15000 and
    every duration from 1 to 12, and for the action 3 and the durations
    1, 2, 4, 7, 8, 9 and 16; it does not for the action 3 and the
    duration 3.  For Swimming there is a workout with a positive duration
    and non-negative fields where mean_speed × duration ≠ distance: its
    speed comes from length_pool and count_pool and its distance from
    action × 1.38 / 1000. *)
Theorem speed_identity_round_trip :
  (forall c self,
     c = Running \/ c = SportsWalking ->
     instance_of c self ->
     get_mean_speed self = Spec.mean_speed (get_distance self) (self∙"duration"))
  /\ (forall c self d di t,
        c = Running \/ c = SportsWalking ->
        instance_of c self ->
        self∙"duration" = Ok d ->
        get_distance self = Ok (Float di) ->
        Py.to_float d = Ok t ->
        (t =? 0)%float = false ->
        get_mean_speed self = Ok (Float (di / t)%float)
        /\ (get_mean_speed self * self∙"duration")%py = Ok (Float (di / t * t)%float)
        /\ (speed_identity self <-> (di / t * t)%float = di)
        /\ (forall j,
              power_of_two t j -> scales_exactly di j = true ->
              speed_identity self))
  /\ (forall c self,
        c = Running \/ c = SportsWalking ->
        instance_of c self ->
        self∙"duration" = Ok (Int 1) \/ self∙"duration" = Ok (Float 1) ->
        speed_identity self)
  /\ Forall (fun d => speed_identity (running 15000 d))
       [1; 2; 3; 4; 5; 6; 7; 8; 9; 10; 11; 12]
  /\ Forall (fun d => speed_identity (running 3 d)) [1; 2; 4; 7; 8; 9; 16]
  /\ get_mean_speed (running 3 3) = Ok (Float 0.00065000000000000008)
  /\ ~ speed_identity (running 3 3)
  /\ (exists self,
        instance_of Swimming self
        /\ positive_duration self
        /\ nonneg_fields self
        /\ get_distance self = Spec.distance Swimming (self∙"action")
        /\ get_mean_speed self
           = Spec.swimming_mean_speed (self∙"length_pool") (self∙"count_pool")
               (self∙"duration")
        /\ ~ speed_identity self).
Proof.
  assert (forall c self,
            c = Running \/ c = SportsWalking ->
            instance_of c self ->
            get_mean_speed self
            = Spec.mean_speed (get_distance self) (self∙"duration")) as Hq
    by (intros c self [-> | ->] H; by_shape H; reflexivity).
  split_and!.
  - exact Hq.
  - intros c self d di t Hc H Hd Hdi Ht Hz.
    assert (get_mean_speed self = Ok (Float (di / t)%float)) as Es.
    { rewrite (Hq c self Hc H), Hdi, Hd. unfold Spec.mean_speed.
      cbn [mbind result_bind]. rewrite truediv_float_by, Ht.
      cbn [mbind result_bind]. by rewrite Hz. }
    assert ((get_mean_speed self * self∙"duration")%py
            = Ok (Float (di / t * t)%float)) as Ep.
    { rewrite Es, Hd. cbn [mbind result_bind]. rewrite mul_float_by, Ht.
      reflexivity. }
    split_and!; [done | done | by apply speed_identity_concrete |].
    intros j Hj Hs. apply (speed_identity_concrete self di _ Hdi Ep).
    by apply (float_div_mul_pow2 di t j).
  - intros c self Hc H Hd. unfold speed_identity.
    assert (exists d, self∙"duration" = Ok d
                      /\ get_mean_speed self = (get_distance self / Ok d)%py)
      as (d & Ed & ->)
      by (destruct Hc as [-> | ->]; by_shape H; eexists; split; reflexivity).
    rewrite Ed in *.
    assert (d = Int 1 \/ d = Float 1) as Hd' by (destruct Hd as [[=]|[=]]; eauto).
    destruct (get_distance self) as [v|e] eqn:Ev; [|reflexivity].
    apply get_distance_float in Ev as [x ->].
    by apply truediv_mul_one.
  - repeat constructor; vm_compute; reflexivity.
  - repeat constructor; vm_compute; reflexivity.
  - vm_compute. reflexivity.
  - intros H.
    apply (f_equal (fun r => match r with
                             | Ok (Float f) => Prim2SF f
                             | _ => S754_nan
                             end)) in H.
    vm_compute in H. discriminate H.
  - exists example_swimming. split_and!.
    + by exists [Int 720; Int 1; Int 80; Int 25; Int 40].
    + exists (Int 1). split; vm_compute; reflexivity.
    + by repeat constructor.
    + reflexivity.
    + reflexivity.
    + intros H.
      apply (f_equal (fun r => match r with
                               | Ok (Float f) => Prim2SF f
                               | _ => S754_nan
                               end)) in H.
      vm_compute in H. discriminate H.
Qed.

(** ** The statements at the packaged data *)

Lemma instance_of_example_swimming : instance_of Swimming example_swimming.
Proof. by exists [Int 720; Int 1; Int 80; Int 25; Int 40]. Qed.

Lemma instance_of_example_running : instance_of Running example_running.
Proof. by exists [Int 15000; Int 1; Int 75]. Qed.

Lemma instance_of_example_walking : instance_of SportsWalking example_walking.
Proof. by exists [Int 9000; Int 1; Int 75; Int 180]. Qed.

Lemma positive_duration_examples :
  positive_duration example_swimming
  /\ positive_duration example_running
  /\ positive_duration example_walking.
Proof. split_and!; exists (Int 1); split; vm_compute; reflexivity. Qed.

Lemma report_template_witness :
  exists lines,
    (run pow_exact accepting packages []).1 = lines
    /\ length lines = 3%nat
    /\ Forall2 (printed pow_exact) packages lines.
Proof.
  destruct (proj2 report_template pow_exact accepting packages []
              (run pow_exact accepting packages []).1)
    as (lines & E & Hlen & Hall).
  - vm_compute. reflexivity.
  - exists lines. split_and!; [by rewrite E | done | done].
Defined.

Lemma read_package_dispatch_witness :
  (exists self,
     read_package "SWM" [Int 720; Int 1; Int 80; Int 25; Int 40] = Ok self
     /\ __class__ self = Swimming)
  /\ read_package "XYZ" [] = Raise unknown_type.
Proof.
  split.
  - apply read_package_dispatch. reflexivity.
  - apply read_package_dispatch. apply (bool_decide_unpack _). vm_compute. reflexivity.
Defined.


Lemma get_distance_formula_witness :
  get_distance example_swimming = Ok (Float 0.9935999999999999)
  /\ get_distance example_running = Ok (Float 9.75)
  /\ get_distance example_walking = Ok (Float 5.85).
Proof.
  split_and!.
  - rewrite (proj2 (proj2 (proj1 get_distance_formula Swimming example_swimming
                             instance_of_example_swimming)) (Int 720) eq_refl).
    vm_compute. reflexivity.
  - rewrite (proj2 (proj2 (proj1 get_distance_formula Running example_running
                             instance_of_example_running)) (Int 15000) eq_refl).
    vm_compute. reflexivity.
  - rewrite (proj2 (proj2 (proj1 get_distance_formula SportsWalking example_walking
                             instance_of_example_walking)) (Int 9000) eq_refl).
    vm_compute. reflexivity.
Defined.

Lemma get_mean_speed_formula_witness :
  get_mean_speed
    (instance Running [("action", Int 15000); ("duration", Int 2); ("weight", Int 75)])
  = Ok (Float 4.875)
  /\ get_mean_speed
       (instance SportsWalking [("action", Int 9000); ("duration", Float 1.5);
                                ("weight", Int 75); ("height", Int 180)])
     = Ok (Float 3.9)
  /\ get_mean_speed
       (instance Swimming [("action", Int 720); ("duration", Int 2); ("weight", Int 80);
                           ("length_pool", Int 25); ("count_pool", Int 40)])
     = Ok (Float 0.5).
Proof.
  split_and!.
  - destruct (proj1 get_mean_speed_formula Running
                (instance Running [("action", Int 15000); ("duration", Int 2);
                                   ("weight", Int 75)])) as [Hr _].
    + by exists [Int 15000; Int 2; Int 75].
    + exists (Int 2). split; vm_compute; reflexivity.
    + destruct (Hr (or_introl eq_refl)) as [_ Hc].
      rewrite (Hc (Int 15000) (Int 2) eq_refl eq_refl).
      vm_compute. reflexivity.
  - destruct (proj1 get_mean_speed_formula SportsWalking
                (instance SportsWalking [("action", Int 9000); ("duration", Float 1.5);
                                         ("weight", Int 75); ("height", Int 180)]))
      as [Hr _].
    + by exists [Int 9000; Float 1.5; Int 75; Int 180].
    + exists (Float 1.5). split; vm_compute; reflexivity.
    + destruct (Hr (or_intror eq_refl)) as [_ Hc].
      rewrite (Hc (Int 9000) (Float 1.5) eq_refl eq_refl).
      vm_compute. reflexivity.
  - destruct (proj1 get_mean_speed_formula Swimming
                (instance Swimming [("action", Int 720); ("duration", Int 2);
                                    ("weight", Int 80); ("length_pool", Int 25);
                                    ("count_pool", Int 40)])) as [_ Hs].
    + by exists [Int 720; Int 2; Int 80; Int 25; Int 40].
    + exists (Int 2). split; vm_compute; reflexivity.
    + destruct (Hs eq_refl) as [_ Hc].
      rewrite (Hc (Int 25) (Int 40) (Int 2) eq_refl eq_refl eq_refl).
      vm_compute. reflexivity.
Defined.

Lemma SportsWalking_calories_formula_witness :
  get_spent_calories pow_exact example_walking
  = Spec.walking_calories pow_exact (get_mean_speed example_walking)
      (example_walking∙"weight") (example_walking∙"height")
      (example_walking∙"duration").
Proof.
  apply (proj1 (SportsWalking_calories_formula pow_exact)).
  - apply instance_of_example_walking.
  - apply positive_duration_examples.
  - exists (Int 180). split; vm_compute; reflexivity.
Defined.


Lemma report_fixed_point_witness :
  exists m,
    show_training_info pow_exact example_running = Ok m /\ fixed_point_report m.
Proof.
  eexists. split; [vm_compute; reflexivity|].
  eapply (report_fixed_point pow_exact example_running).
  - vm_compute. reflexivity.
  - split_and!; eexists; split; vm_compute; reflexivity.
Defined.

Lemma get_spent_calories_overridden_witness :
  implemented (get_spent_calories pow_exact example_walking).
Proof.
  apply (get_spent_calories_overridden pow_exact) with (c := SportsWalking).
  - apply (bool_decide_unpack _). vm_compute. reflexivity.
  - apply instance_of_example_walking.
Defined.

Lemma speed_identity_round_trip_witness :
  get_mean_speed (running 15000 2) = Ok (Float 4.875)
  /\ (get_mean_speed (running 15000 2) * (running 15000 2)∙"duration")%py
     = Ok (Float 9.75)
  /\ speed_identity (running 15000 2)
  /\ speed_identity example_running.
Proof.
  destruct (proj1 (proj2 speed_identity_round_trip) Running (running 15000 2)
              (Int 2) 9.75%float 2%float) as (Hs & Hp & _ & Hj).
  - by left.
  - by exists [Int 15000; Int 2; Int 75].
  - reflexivity.
  - vm_compute. reflexivity.
  - vm_compute. reflexivity.
  - reflexivity.
  - split_and!.
    + rewrite Hs. vm_compute. reflexivity.
    + rewrite Hp. vm_compute. reflexivity.
    + apply (Hj (-51)); vm_compute; reflexivity.
    + apply (proj1 (proj2 (proj2 speed_identity_round_trip)) Running).
      * by left.
      * apply instance_of_example_running.
      * left. vm_compute. reflexivity.
Defined.

(** * Further properties of the module *)

(** ** Construction and attribute lookup *)

Lemma fields_NoDup c : NoDup (fields c).
Proof. destruct c; apply (bool_decide_unpack _); vm_compute; reflexivity. Qed.

Lemma init_dict c args self :
  __init__ c args = Ok self ->
  __class__ self = c /\ (__dict__ self).*1 = fields c /\ (__dict__ self).*2 = args.
Proof.
  intros [Hlen ->]%init_inv. cbn [__class__ __dict__]. split_and!; [done| |].
  - apply fst_zip. lia.
  - apply snd_zip. lia.
Qed.

(** X1: the generated constructor stores its positional arguments under the
    field names in declaration order, the fields of the base class first,
    and [self.name] reads the stored value back unchanged. *)
Theorem init_getattr c args self i name v :
  __init__ c args = Ok self ->
  fields c !! i = Some name ->
  args !! i = Some v ->
  self∙name = Ok v.
Proof.
  intros (_ & Hk & Hv)%init_dict Hi Ha. unfold getattr.
  assert ((list_to_map (__dict__ self) : gmap string num) !! name = Some v) as ->; [|done].
  apply elem_of_list_to_map_1.
  - rewrite Hk. apply fields_NoDup.
  - apply list_elem_of_lookup. exists i.
    rewrite <- (zip_fst_snd (__dict__ self)), Hk, Hv.
    apply lookup_zip_with_Some. eauto.
Qed.

Lemma fields_not_constants c c' name :
  name ∈ fields c' -> class_getattr c name = None.
Proof.
  intros Hn.
  destruct c'; cbn in Hn; set_unfold; destruct_or?; simplify_eq;
    destruct c; vm_compute; reflexivity.
Qed.

(** X2: among the names of the data of the module (dataclass fields and
    class constants), one that is not a field of the class of an instance
    is looked up on the classes of the method resolution order only,
    whatever data the instance holds, and the lookup ends in
    [AttributeError] when no class has it.  So a field of another kind of
    workout, such as the height on a run, is an [AttributeError]. *)
Theorem getattr_class c args self name :
  __init__ c args = Ok self ->
  data_name name ->
  name ∉ fields c ->
  self∙name
  = match class_getattr c name with
    | Some v => Ok v
    | None => Raise AttributeError
    end
  /\ (forall c', name ∈ fields c' -> self∙name = Raise AttributeError).
Proof.
  intros (Hc & Hk & _)%init_dict _ Hn.
  assert (self∙name
          = match class_getattr c name with
            | Some v => Ok v
            | None => Raise AttributeError
            end) as E.
  { unfold getattr. rewrite Hc.
    rewrite (not_elem_of_list_to_map_1 _ name); [done|].
    by rewrite Hk. }
  split; [done|].
  intros c' Hc'. by rewrite E, (fields_not_constants c c').
Qed.

(** No class constant bears the name of a field: instance data never
    hides a constant of the class or of its base. *)
Theorem constants_not_fields c k name :
  k ∈ mro c -> name ∈ fields c -> class_vars k !! name = None.
Proof.
  intros Hk Hn.
  destruct c; cbn in Hk, Hn; set_unfold; destruct_or?; simplify_eq;
    vm_compute; reflexivity.
Qed.

(** X3: the constants of a class cannot be changed through the constructor:
    on every instance, whatever its data, a constant reads as the class
    (or its base) defines it. *)
Theorem class_constants_fixed c args self name v :
  __init__ c args = Ok self ->
  class_getattr c name = Some v ->
  self∙name = Ok v.
Proof.
  intros Hi Hc.
  assert (name ∉ fields c) as Hn.
  { intros Hn. unfold class_getattr in Hc.
    destruct (list_find _ (mro c)) as [[j k]|] eqn:Hf; [|discriminate Hc].
    apply list_find_Some in Hf as (Hj%list_elem_of_lookup_2 & [w Hw] & _).
    by rewrite (constants_not_fields c k name) in Hw. }
  apply init_dict in Hi as (Hcl & Hk & _). unfold getattr.
  rewrite (not_elem_of_list_to_map_1 _ name) by (by rewrite Hk).
  by rewrite Hcl, Hc.
Qed.

(** ** Exceptions of the arithmetic *)

Lemma arith_only_ok {A} (a : A) : arith_only (Ok a).
Proof. intros e. discriminate. Qed.

Lemma arith_only_returns {A} (m : result A) a : m = Ok a -> arith_only m.
Proof. intros -> e. discriminate. Qed.

Lemma arith_only_bind {A B} (m : result A) (f : A -> result B) :
  arith_only m -> (forall a, arith_only (f a)) -> arith_only (m ≫= f).
Proof.
  intros Hm Hf e. destruct m as [a|e']; cbn [mbind result_bind].
  - apply Hf.
  - intros [= <-]. by apply Hm.
Qed.

Lemma arith_only_fmap {A B} (m : result A) (f : A -> B) :
  arith_only m -> arith_only (f <$> m).
Proof.
  intros Hm e. destruct m as [a|e']; cbn [fmap result_fmap]; [discriminate|].
  intros [= <-]. by apply Hm.
Qed.

Lemma arith_only_float_of_SF s : arith_only (Py.float_of_SF s).
Proof. intros e. destruct s; try discriminate. intros [= <-]. by right. Qed.

Lemma arith_only_to_float x : arith_only (Py.to_float x).
Proof. destruct x; [apply arith_only_float_of_SF | apply arith_only_ok]. Qed.

Lemma arith_only_int_true_divide a b : arith_only (Py.int_true_divide a b).
Proof.
  unfold Py.int_true_divide.
  destruct (b =? 0)%Z; [intros e [= <-]; by left|].
  destruct (a =? 0)%Z; [apply arith_only_ok|].
  destruct (SFdiv_core_binary _ _ _ _ _ _) as [[q e] l].
  apply arith_only_float_of_SF.
Qed.

Lemma arith_only_float_div x y : arith_only (Py.float_div x y).
Proof.
  unfold Py.float_div.
  destruct (_ =? _)%float; [intros e [= <-]; by left | apply arith_only_ok].
Qed.

Lemma arith_only_float_pow2 libm_pow x : arith_only (Py.float_pow2 libm_pow x).
Proof.
  unfold Py.float_pow2.
  repeat match goal with |- context [if ?b then _ else _] => destruct b end;
    try apply arith_only_ok.
  intros e [= <-]. by right.
Qed.

Create HintDb arith.
#[local] Hint Resolve arith_only_ok arith_only_to_float arith_only_int_true_divide
  arith_only_float_div arith_only_float_pow2 arith_only_fmap : arith.

Ltac arith_steps :=
  repeat first
    [ apply arith_only_bind; [|intros ?]
    | solve [auto with arith]
    | solve [eapply arith_only_returns; reflexivity] ].

Lemma arith_only_mul x y : arith_only (Py.mul x y).
Proof. unfold Py.mul. destruct x, y; arith_steps. Qed.

Lemma arith_only_add x y : arith_only (Py.add x y).
Proof. unfold Py.add. destruct x, y; arith_steps. Qed.

Lemma arith_only_truediv x y : arith_only (Py.truediv x y).
Proof. unfold Py.truediv. destruct x, y; arith_steps. Qed.

Lemma arith_only_pow2 libm_pow x : arith_only (Py.pow2 libm_pow x).
Proof. unfold Py.pow2. destruct x; arith_steps. Qed.

#[local] Hint Resolve arith_only_mul arith_only_add arith_only_truediv
  arith_only_pow2 : arith.

Lemma arith_only_get_distance c self :
  instance_of c self -> arith_only (get_distance self).
Proof.
  intros H. destruct c; by_shape H;
    unfold get_distance;
    change (resolve _ "get_distance") with (Some Training);
    unfold Training_get_distance; arith_steps.
Qed.

Lemma arith_only_get_mean_speed c self :
  instance_of c self -> arith_only (get_mean_speed self).
Proof.
  intros H. pose proof (arith_only_get_distance c self H) as Hd.
  destruct c; by_shape H; unfold get_mean_speed.
  1-3: change (resolve _ "get_mean_speed") with (Some Training);
       unfold Training_get_mean_speed; arith_steps.
  change (resolve _ "get_mean_speed") with (Some Swimming).
  unfold Swimming_get_mean_speed. arith_steps.
Qed.

Lemma arith_only_get_spent_calories libm_pow c self :
  c ∈ variants -> instance_of c self ->
  arith_only (get_spent_calories libm_pow self).
Proof.
  intros Hc H. pose proof (arith_only_get_mean_speed c self H) as Hs.
  unfold variants in Hc. rewrite !elem_of_cons, elem_of_nil in Hc.
  destruct Hc as [-> | [-> | [-> | []]]]; by_shape H; unfold get_spent_calories;
    rewrite resolve_get_spent_calories.
  - unfold Running_get_spent_calories. arith_steps.
  - unfold SportsWalking_get_spent_calories, pow_2. arith_steps.
  - unfold Swimming_get_spent_calories. arith_steps.
Qed.

Lemma arith_only_fmt3 x : arith_only (fmt3 x).
Proof. unfold fmt3. arith_steps. Qed.

Lemma arith_only_get_message m : arith_only (InfoMessage.get_message m).
Proof.
  rewrite get_message_report_line. unfold report_line.
  repeat (apply arith_only_bind; [apply arith_only_fmt3 | intros ?]).
  apply arith_only_ok.
Qed.

(** ** Distance and mean speed in closed form *)

(** X4: [get_distance] never divides by zero: for every instance it is the
    float [action * LEN_STEP / 1000], and it fails only with
    [OverflowError], when the action is an int beyond the range of a
    float. *)
Theorem get_distance_closed c self a :
  instance_of c self ->
  self∙"action" = Ok a ->
  get_distance self
  = (x ← Py.to_float a; Ok (Float (x * Spec.step_length c / 1000)%float)).
Proof.
  intros H Ha.
  assert (get_distance self
          = (p ← Py.mul a (Float (Spec.step_length c)); Py.truediv p (Int 1000)))
    as -> by (destruct c; by_shape H; vm_compute in Ha; by injection Ha as ->).
  rewrite mul_by_float.
  destruct (Py.to_float a) as [x|]; cbn [mbind result_bind]; [|done].
  apply truediv_by_1000.
Qed.

(** X5: the mean speed of Running and SportsWalking (and of the base class)
    is the float [action * 0.65 / 1000 / duration]; it raises
    [ZeroDivisionError] exactly when the duration compares equal to zero,
    and [OverflowError] only for an int beyond the range of a float. *)
Theorem Training_mean_speed_closed c self a d :
  c <> Swimming ->
  instance_of c self ->
  self∙"action" = Ok a ->
  self∙"duration" = Ok d ->
  get_mean_speed self
  = (x ← Py.to_float a;
     t ← Py.to_float d;
     if (t =? 0)%float then Raise ZeroDivisionError
     else Ok (Float (x * 0.65 / 1000 / t)%float)).
Proof.
  intros Hc H Ha Hd.
  assert (get_mean_speed self
          = (v ← (p ← Py.mul a (Float 0.65); Py.truediv p (Int 1000));
             Py.truediv v d)) as ->
    by (destruct c; try done; by_shape H; vm_compute in Ha, Hd;
        injection Ha as ->; by injection Hd as ->).
  rewrite mul_by_float.
  destruct (Py.to_float a) as [x|]; cbn [mbind result_bind]; [|done].
  rewrite truediv_by_1000. cbn [mbind result_bind].
  apply truediv_float_by.
Qed.

(** ** A duration of zero *)

Lemma to_float_zero : Py.to_float (Int 0) = Ok 0%float.
Proof. vm_compute. reflexivity. Qed.

Lemma truediv_zero x d :
  is_zero_num d = true -> Py.truediv (Float x) d = Raise ZeroDivisionError.
Proof.
  intros Hz. rewrite truediv_float_by. destruct d as [z|f]; cbn in Hz.
  - apply Z.eqb_eq in Hz as ->. by rewrite to_float_zero.
  - cbn [Py.to_float mbind result_bind]. by rewrite Hz.
Qed.

Lemma mean_speed_dividend c self d :
  instance_of c self ->
  self∙"duration" = Ok d ->
  exists m : result num,
    arith_only m
    /\ get_mean_speed self = (v ← m; Py.truediv v d)
    /\ forall v, m = Ok v -> exists x, v = Float x.
Proof.
  intros H Hd. destruct c.
  1-3: exists (get_distance self); split_and!;
       [ eapply arith_only_get_distance; eauto
       | by_shape H; vm_compute in Hd; by injection Hd as ->
       | apply get_distance_float ].
  by_shape H. vm_compute in Hd. injection Hd as ->.
  match goal with
  | |- context [instance Swimming ?l] =>
      exists (p ← (instance Swimming l)∙"length_pool" * (instance Swimming l)∙"count_pool";
              Py.truediv p (Int 1000))%py
  end.
  split_and!.
  - arith_steps.
  - reflexivity.
  - intros v Hv.
    match type of Hv with
    | ?M ≫= _ = _ => destruct M as [p|]; cbn [mbind result_bind] in Hv; [|done]
    end.
    by eapply truediv_float.
Qed.

(** X6: with a duration that compares equal to zero (the int 0, the float 0.0
    or -0.0) no workout has a mean speed: [get_mean_speed] raises
    [ZeroDivisionError], or [OverflowError] when an int operand is beyond
    the range of a float, and hence neither [show_training_info] nor
    [main] returns. *)
Theorem zero_duration_raises libm_pow c self d :
  instance_of c self ->
  self∙"duration" = Ok d ->
  is_zero_num d = true ->
  exists e,
    arith_error e
    /\ get_mean_speed self = Raise e
    /\ (forall m, show_training_info libm_pow self <> Ok m)
    /\ (forall write_error out out',
          main libm_pow write_error self out <> Ok out').
Proof.
  intros H Hd Hz.
  destruct (mean_speed_dividend c self d H Hd) as (m & Hm & Hs & Hf).
  assert (exists e, arith_error e /\ get_mean_speed self = Raise e) as (e & He & Hr).
  { rewrite Hs. destruct m as [v|e] eqn:E; cbn [mbind result_bind].
    - destruct (Hf v eq_refl) as [x ->]. rewrite truediv_zero by done.
      exists ZeroDivisionError. split; [by left | done].
    - exists e. split; [by apply Hm | done]. }
  exists e. split_and!; [done..| |].
  - intros info Hi. unfold show_training_info in Hi.
    destruct (resolve _ _) as [[]|]; try discriminate Hi.
    unfold Training_show_training_info in Hi. rewrite Hd, Hr in Hi.
    cbn [mbind result_bind] in Hi.
    destruct (get_distance self); discriminate Hi.
  - intros write_error out out' Ho. unfold main in Ho.
    destruct (show_training_info libm_pow self) as [info|] eqn:Hi;
      [|discriminate Ho].
    unfold show_training_info in Hi.
    destruct (resolve _ _) as [[]|]; try discriminate Hi.
    unfold Training_show_training_info in Hi. rewrite Hd, Hr in Hi.
    cbn [mbind result_bind] in Hi.
    destruct (get_distance self); discriminate Hi.
Qed.

(** ** What [main] and the script can raise *)

Lemma arith_only_show_training_info libm_pow c self :
  c ∈ variants -> instance_of c self ->
  arith_only (show_training_info libm_pow self).
Proof.
  intros Hc H.
  pose proof (arith_only_get_distance c self H).
  pose proof (arith_only_get_mean_speed c self H).
  pose proof (arith_only_get_spent_calories libm_pow c self Hc H).
  assert (exists d, self∙"duration" = Ok d) as [d Hd]
    by (destruct c; by_shape H; eexists; reflexivity).
  assert (resolve (__class__ self) "show_training_info" = Some Training) as Hr
    by (destruct c; by_shape H; reflexivity).
  unfold show_training_info. rewrite Hr.
  unfold Training_show_training_info. rewrite Hd. arith_steps.
Qed.


Lemma WORKOUT_TYPES_variants code c :
  WORKOUT_TYPES !! code = Some c -> c ∈ variants.
Proof.
  unfold WORKOUT_TYPES, variants. intros H.
  apply lookup_insert_Some in H as [[_ <-] | [_ H]]; [set_solver|].
  apply lookup_insert_Some in H as [[_ <-] | [_ H]]; [set_solver|].
  apply lookup_singleton_Some in H as [_ <-]. set_solver.
Qed.

(** X8: [read_package] returns an instance exactly for a known code with one
    value per field: the instance is of the class registered for the
    code, never of the base class, and holds the data unchanged, in
    order, under the field names. *)
Theorem read_package_returns code data self :
  read_package code data = Ok self
  <-> exists c,
        WORKOUT_TYPES !! code = Some c
        /\ c ∈ variants
        /\ length data = length (fields c)
        /\ self = instance c (zip (fields c) data).
Proof.
  split.
  - intros H. destruct (WORKOUT_TYPES !! code) as [c|] eqn:Hc.
    + rewrite (read_package_known code c) in H by done.
      apply init_inv in H as [Hlen ->].
      exists c. split_and!; eauto using WORKOUT_TYPES_variants.
    + unfold read_package in H.
      rewrite bool_decide_eq_false_2 in H; [discriminate H|].
      rewrite elem_of_dom, Hc. by intros [? ?].
  - intros (c & Hc & _ & Hlen & ->).
    rewrite (read_package_known code c) by done.
    unfold __init__. by rewrite decide_True.
Qed.

Lemma read_package_raises code data e :
  read_package code data = Raise e -> e = unknown_type \/ e = TypeError.
Proof.
  intros H. destruct (WORKOUT_TYPES !! code) as [c|] eqn:Hc.
  - rewrite (read_package_known code c) in H by done.
    unfold __init__ in H. destruct (decide _); [discriminate H|].
    injection H as <-. by right.
  - unfold read_package in H.
    rewrite bool_decide_eq_false_2 in H; [injection H as <-; by left|].
    rewrite elem_of_dom, Hc. by intros [? ?].
Qed.

Lemma read_package_instance code data self :
  read_package code data = Ok self -> exists c, c ∈ variants /\ instance_of c self.
Proof.
  intros H. destruct (WORKOUT_TYPES !! code) as [c|] eqn:Hc.
  - rewrite (read_package_known code c) in H by done.
    exists c. split; [by eapply WORKOUT_TYPES_variants | by exists data].
  - unfold read_package in H.
    rewrite bool_decide_eq_false_2 in H; [discriminate H|].
    rewrite elem_of_dom, Hc. by intros [? ?].
Qed.

Lemma arith_only_main_line libm_pow c self :
  c ∈ variants -> instance_of c self -> arith_only (main_line libm_pow self).
Proof.
  intros Hc H. unfold main_line.
  apply arith_only_bind; [by eapply arith_only_show_training_info|].
  intros m. apply arith_only_get_message.
Qed.

Lemma main_raises libm_pow write_error c self out e :
  c ∈ variants -> instance_of c self ->
  main libm_pow write_error self out = Raise e ->
  arith_error e
  \/ exists line, main_line libm_pow self = Ok line /\ write_error line = Some e.
Proof.
  intros Hc H. pose proof (arith_only_main_line libm_pow c self Hc H) as Hl.
  unfold main. fold (main_line libm_pow self).
  destruct (main_line libm_pow self) as [line|e']; cbn [mbind result_bind].
  - unfold print. destruct (write_error line) as [e'|] eqn:Hw; [|done].
    intros [= <-]. right. by exists line.
  - intros [= <-]. left. by apply Hl.
Qed.

Lemma run_step libm_pow write_error workout_type data rest out :
  run libm_pow write_error ((workout_type, data) :: rest) out
  = match training ← read_package workout_type data;
          main libm_pow write_error training out with
    | Ok out' => run libm_pow write_error rest out'
    | Raise e => (out, Some e)
    end.
Proof. reflexivity. Qed.

(** X9: whatever the packages, a run of the script that ends with an
    exception ends with the unknown-type [ValueError], the [TypeError] of
    a wrong number of values, [ZeroDivisionError] or [OverflowError], or
    with the exception that standard output raised for the report line of
    one of the packages.  In particular the [NotImplementedError] of the
    base class cannot be reached through the dispatcher unless the stream
    itself raises it, and on a standard output that takes every line only
    the four exceptions remain. *)
Theorem run_raises libm_pow write_error pkgs :
  forall out out' e,
    run libm_pow write_error pkgs out = (out', Some e) ->
    (script_error e
     \/ exists workout_type data self line,
          (workout_type, data) ∈ pkgs
          /\ read_package workout_type data = Ok self
          /\ main_line libm_pow self = Ok line
          /\ write_error line = Some e)
    /\ ((forall line, write_error line = None) -> script_error e).
Proof.
  intros out out' e H.
  assert (script_error e
     \/ exists workout_type data self line,
          (workout_type, data) ∈ pkgs
          /\ read_package workout_type data = Ok self
          /\ main_line libm_pow self = Ok line
          /\ write_error line = Some e) as Hcases.
  { revert out out' e H.
    induction pkgs as [|[workout_type data] rest IH]; intros out out' e H.
    - discriminate H.
    - rewrite run_step in H.
      destruct (read_package workout_type data) as [self|e'] eqn:Hr;
        cbn [mbind result_bind] in H.
      + pose proof Hr as (c & Hv & Hi)%read_package_instance.
        destruct (main libm_pow write_error self out) as [out1|e1] eqn:Hm.
        * apply IH in H as [H | (w & d & s & l & Hin & H)]; [by left|].
          right. exists w, d, s, l. split; [by apply elem_of_cons; right | done].
        * injection H as _ <-.
          destruct (main_raises _ _ _ _ _ _ Hv Hi Hm) as [He | (line & Hl & Hw)].
          -- left. right. by right.
          -- right. exists workout_type, data, self, line.
             split; [by apply elem_of_cons; left | done].
      + injection H as _ <-. left.
        apply read_package_raises in Hr as [-> | ->]; [by left | right; by left]. }
  split; [done|].
  intros Hacc. destruct Hcases as [He | (w & d & s & l & _ & _ & _ & Hw)]; [done|].
  rewrite Hacc in Hw. discriminate Hw.
Qed.

(** ** How runs compose *)

(** X10: processing a list of packages in two parts gives the run of the whole
    list: the second part continues from the output of the first, and is
    not started when the first part ended with an exception. *)
Theorem run_app libm_pow write_error pkgs1 pkgs2 :
  forall out,
    run libm_pow write_error (pkgs1 ++ pkgs2) out
    = match run libm_pow write_error pkgs1 out with
      | (out1, None) => run libm_pow write_error pkgs2 out1
      | (out1, Some e) => (out1, Some e)
      end.
Proof.
  induction pkgs1 as [|[workout_type data] rest IH]; intros out.
  - reflexivity.
  - rewrite <- app_comm_cons, !run_step.
    destruct (_ ≫= _) as [out1|e]; [apply IH | reflexivity].
Qed.

(** X11: a run never removes or changes what was printed before it: its output
    extends the earlier output by at most one line per package, and by
    fewer lines than there are packages when it ends with an exception. *)
Theorem run_extends libm_pow write_error pkgs :
  forall out out' r,
    run libm_pow write_error pkgs out = (out', r) ->
    exists lines,
      out' = (out ++ lines)%list
      /\ (length lines <= length pkgs)%nat
      /\ (r <> None -> (length lines < length pkgs)%nat).
Proof.
  induction pkgs as [|[workout_type data] rest IH]; intros out out' r H.
  - injection H as <- <-. exists []. rewrite app_nil_r. split_and!; done.
  - rewrite run_step in H.
    destruct (read_package workout_type data) as [self|e] eqn:Hr;
      cbn [mbind result_bind] in H.
    + unfold main in H.
      destruct (m ← show_training_info libm_pow self; InfoMessage.get_message m)
        as [line|e]; cbn [mbind result_bind] in H.
      * unfold print in H. destruct (write_error line) as [e|].
        -- injection H as <- <-. exists []. rewrite app_nil_r.
           split_and!; [done | simpl; lia | intros _; simpl; lia].
        -- apply IH in H as (lines & -> & Hle & Hlt).
           exists (line :: lines). rewrite <- app_assoc.
           split_and!;
             [done | simpl; lia | intros Hn; specialize (Hlt Hn); simpl; lia].
      * injection H as <- <-. exists []. rewrite app_nil_r.
        split_and!; [done | simpl; lia | intros _; simpl; lia].
    + injection H as <- <-. exists []. rewrite app_nil_r.
      split_and!; [done | simpl; lia | intros _; simpl; lia].
Qed.

(** ** Rendering of numbers *)

Lemma SFeqb_refl x : x <> S754_nan -> SFeqb x x = true.
Proof.
  unfold SFeqb. destruct x as [s|s| |s m e]; intros H; try done; cbn.
  - by destruct s.
  - destruct s; rewrite Z.compare_refl, Pos.compare_cont_refl; done.
Qed.

Lemma is_nan_Prim2SF f : is_nan f = true -> Prim2SF f = S754_nan.
Proof.
  unfold is_nan. rewrite FloatAxioms.eqb_spec. intros H.
  destruct (Prim2SF f) as [s|s| |s m e] eqn:E; [| |done|];
    by rewrite SFeqb_refl in H.
Qed.

Lemma is_infinity_Prim2SF f :
  is_infinity f = true -> exists s, Prim2SF f = S754_infinity s.
Proof.
  unfold is_infinity. rewrite FloatAxioms.eqb_spec, abs_spec.
  change (Prim2SF infinity) with (S754_infinity false).
  destruct (Prim2SF f) as [s|s| |s m e]; cbn; try discriminate; eauto.
Qed.

(** X12: a float rendered with [.Nf], [N > 0], is in fixed-point notation with
    [N] digits after the point exactly when it is finite; an infinity
    is rendered [inf] or [-inf] and a NaN [nan]. *)
Theorem format_f_fixed_iff_finite p f :
  Fmt.is_fixed (S p) (Fmt.format_f (S p) f) = is_finite f
  /\ (is_nan f = true -> Fmt.format_f (S p) f = "nan")
  /\ (is_infinity f = true ->
      Fmt.format_f (S p) f = "inf" \/ Fmt.format_f (S p) f = "-inf").
Proof.
  assert (is_nan f = true -> Fmt.format_f (S p) f = "nan") as Hnan.
  { intros H%is_nan_Prim2SF. unfold Fmt.format_f. by rewrite H. }
  assert (is_infinity f = true ->
          Fmt.format_f (S p) f = "inf" \/ Fmt.format_f (S p) f = "-inf") as Hinf.
  { intros [s H]%is_infinity_Prim2SF. unfold Fmt.format_f. rewrite H.
    destruct s; [by right | by left]. }
  split_and!; [|done..].
  destruct (is_finite f) eqn:Hf; [by apply format_f_fixed|].
  unfold is_finite in Hf. apply negb_false_iff, orb_true_iff in Hf as [H | H].
  - by rewrite Hnan.
  - by destruct (Hinf H) as [-> | ->].
Qed.

(** X13: [get_message] finds every key of its template and accepts every
    float, also an infinity or a NaN: it fails only with [OverflowError],
    when a numeric field is an int beyond the range of a float. *)
Theorem get_message_raises m e :
  InfoMessage.get_message m = Raise e ->
  e = OverflowError
  /\ exists z,
       Int z ∈ [InfoMessage.duration m; InfoMessage.distance m;
                InfoMessage.speed m; InfoMessage.calories m]
       /\ Py.float_of_int z = Raise OverflowError.
Proof.
  rewrite get_message_report_line. unfold report_line.
  assert (forall x e', fmt3 x = Raise e' ->
            e' = OverflowError
            /\ exists z, x = Int z /\ Py.float_of_int z = Raise OverflowError) as Hx.
  { intros [z|f] e'; unfold fmt3; cbn [Py.to_float mbind result_bind]; [|done].
    pose proof (arith_only_float_of_SF (binary_normalize prec emax z 0 false)) as Ha.
    unfold Py.float_of_int.
    destruct (Py.float_of_SF _) as [|e0] eqn:E; cbn [mbind result_bind]; [done|].
    intros [= <-].
    assert (e0 = OverflowError) as ->
      by (destruct (binary_normalize _ _ _ _ _); by inversion E).
    eauto. }
  destruct (fmt3 (InfoMessage.duration m)) eqn:E1; cbn [mbind result_bind];
    [|intros [= <-]; destruct (Hx _ _ E1) as (-> & z & Hz & Ho);
      split; [done|]; exists z; rewrite <- Hz; split; [rewrite !elem_of_cons; auto | done]].
  destruct (fmt3 (InfoMessage.distance m)) eqn:E2; cbn [mbind result_bind];
    [|intros [= <-]; destruct (Hx _ _ E2) as (-> & z & Hz & Ho);
      split; [done|]; exists z; rewrite <- Hz; split; [rewrite !elem_of_cons; auto | done]].
  destruct (fmt3 (InfoMessage.speed m)) eqn:E3; cbn [mbind result_bind];
    [|intros [= <-]; destruct (Hx _ _ E3) as (-> & z & Hz & Ho);
      split; [done|]; exists z; rewrite <- Hz; split; [rewrite !elem_of_cons; auto | done]].
  destruct (fmt3 (InfoMessage.calories m)) eqn:E4; cbn [mbind result_bind];
    [discriminate|intros [= <-]; destruct (Hx _ _ E4) as (-> & z & Hz & Ho);
      split; [done|]; exists z; rewrite <- Hz; split; [rewrite !elem_of_cons; auto | done]].
Qed.

(** ** The report of a workout *)

Lemma float_valued_truediv x y : float_valued (Py.truediv x y).
Proof. intros v. apply truediv_float. Qed.

Lemma float_valued_mul x y :
  (exists f, x = Float f) \/ (exists f, y = Float f) -> float_valued (Py.mul x y).
Proof.
  intros H v. unfold Py.mul.
  destruct x as [a|a], y as [b|b]; try (destruct H as [[? [=]] | [? [=]]]; fail);
    cbn [Py.to_float mbind result_bind];
    repeat match goal with
           | |- context [Py.float_of_int ?z] =>
               destruct (Py.float_of_int z); cbn [mbind result_bind]; [|done]
           end; intros [= <-]; eauto.
Qed.

Lemma float_valued_add x y :
  (exists f, x = Float f) \/ (exists f, y = Float f) -> float_valued (Py.add x y).
Proof.
  intros H v. unfold Py.add.
  destruct x as [a|a], y as [b|b]; try (destruct H as [[? [=]] | [? [=]]]; fail);
    cbn [Py.to_float mbind result_bind];
    repeat match goal with
           | |- context [Py.float_of_int ?z] =>
               destruct (Py.float_of_int z); cbn [mbind result_bind]; [|done]
           end; intros [= <-]; eauto.
Qed.

Lemma float_valued_div (m1 m2 : result num) : float_valued (m1 / m2)%py.
Proof.
  intros v. destruct m1 as [a|]; cbn [mbind result_bind]; [|done].
  destruct m2 as [b|]; cbn [mbind result_bind]; [|done].
  apply float_valued_truediv.
Qed.

Lemma float_valued_mul_l (m1 m2 : result num) :
  float_valued m1 -> float_valued (m1 * m2)%py.
Proof.
  intros H1 v. destruct m1 as [a|]; cbn [mbind result_bind]; [|done].
  destruct m2 as [b|]; cbn [mbind result_bind]; [|done].
  apply float_valued_mul. left. by apply H1.
Qed.

Lemma float_valued_add_l (m1 m2 : result num) :
  float_valued m1 -> float_valued (m1 + m2)%py.
Proof.
  intros H1 v. destruct m1 as [a|]; cbn [mbind result_bind]; [|done].
  destruct m2 as [b|]; cbn [mbind result_bind]; [|done].
  apply float_valued_add. left. by apply H1.
Qed.

Lemma float_valued_get_mean_speed c self :
  instance_of c self -> float_valued (get_mean_speed self).
Proof.
  intros H.
  assert (exists d, self∙"duration" = Ok d) as [d Hd]
    by (destruct c; by_shape H; eexists; reflexivity).
  destruct (mean_speed_dividend c self d H Hd) as (m & _ & -> & _).
  intros v. destruct m as [w|]; cbn [mbind result_bind]; [|done].
  apply float_valued_truediv.
Qed.

Lemma float_valued_get_spent_calories libm_pow c self :
  c ∈ variants -> instance_of c self ->
  float_valued (get_spent_calories libm_pow self).
Proof.
  intros Hc H. pose proof (float_valued_get_mean_speed c self H) as Hs.
  unfold variants in Hc. rewrite !elem_of_cons, elem_of_nil in Hc.
  destruct Hc as [-> | [-> | [-> | []]]]; by_shape H; unfold get_spent_calories;
    rewrite resolve_get_spent_calories.
  - unfold Running_get_spent_calories.
    do 2 apply float_valued_mul_l. apply float_valued_div.
  - unfold SportsWalking_get_spent_calories.
    do 2 apply float_valued_mul_l. apply float_valued_add_l, float_valued_mul_l.
    intros v [= <-]. eauto.
  - unfold Swimming_get_spent_calories.
    do 3 apply float_valued_mul_l. by apply float_valued_add_l.
Qed.

(** X14: the report of a workout of one of the three kinds carries the name of
    the workout's own class, its duration as given, and the distance,
    mean speed and calories its methods return; these three are floats
    even when every input is an int. *)
Theorem show_training_info_fields libm_pow c self m :
  c ∈ variants ->
  instance_of c self ->
  show_training_info libm_pow self = Ok m ->
  InfoMessage.training_type m = __name__ c
  /\ InfoMessage.training_type m <> "Training"
  /\ self∙"duration" = Ok (InfoMessage.duration m)
  /\ get_distance self = Ok (InfoMessage.distance m)
  /\ get_mean_speed self = Ok (InfoMessage.speed m)
  /\ get_spent_calories libm_pow self = Ok (InfoMessage.calories m)
  /\ exists x y z,
       InfoMessage.distance m = Float x
       /\ InfoMessage.speed m = Float y
       /\ InfoMessage.calories m = Float z.
Proof.
  intros Hc H Hm.
  pose proof (float_valued_get_mean_speed c self H) as Hs.
  pose proof (float_valued_get_spent_calories libm_pow c self Hc H) as Hk.
  assert (__class__ self = c) as Hcl by (destruct c; by_shape H; reflexivity).
  assert (resolve c "show_training_info" = Some Training) as Hr by (by destruct c).
  unfold show_training_info in Hm. rewrite Hcl, Hr in Hm.
  unfold Training_show_training_info in Hm. rewrite Hcl in Hm.
  destruct (self∙"duration") as [d|]; cbn [mbind result_bind] in Hm; [|done].
  destruct (get_distance self) as [di|] eqn:Hd; cbn [mbind result_bind] in Hm; [|done].
  destruct (get_mean_speed self) as [sp|]; cbn [mbind result_bind] in Hm; [|done].
  destruct (get_spent_calories libm_pow self) as [ca|];
    cbn [mbind result_bind] in Hm; [|done].
  injection Hm as <-. cbn.
  apply get_distance_float in Hd as [x ->].
  destruct (Hs sp eq_refl) as [y ->]. destruct (Hk ca eq_refl) as [z ->].
  split_and!; try done; [|by exists x, y, z].
  unfold variants in Hc. rewrite !elem_of_cons, elem_of_nil in Hc.
  by destruct Hc as [-> | [-> | [-> | []]]].
Qed.

(** X15: an instance of the base class itself has no report: its
    [show_training_info] never returns, and it raises the
    [NotImplementedError] of the base [get_spent_calories] as soon as the
    distance and the mean speed are computed. *)
Theorem base_class_has_no_report libm_pow self :
  instance_of Training self ->
  (forall m, show_training_info libm_pow self <> Ok m)
  /\ (forall di sp,
        get_distance self = Ok di ->
        get_mean_speed self = Ok sp ->
        show_training_info libm_pow self
        = Raise (NotImplementedError "Метод будет реализован в дочерних классах")).
Proof.
  intros H.
  assert (show_training_info libm_pow self
          = (duration ← self∙"duration";
             distance ← get_distance self;
             speed ← get_mean_speed self;
             calories ← Training_get_spent_calories self;
             Ok (InfoMessage.new "Training" duration distance speed calories)))
    as -> by (by_shape H; reflexivity).
  assert (exists d, self∙"duration" = Ok d) as [d ->]
    by (by_shape H; eexists; reflexivity).
  cbn [mbind result_bind]. split.
  - intros m. destruct (get_distance self); cbn [mbind result_bind]; [|done].
    destruct (get_mean_speed self); cbn [mbind result_bind]; done.
  - by intros di sp -> ->.
Qed.

(** X16: the mean speed and the calories of a Swimming workout do not depend
    on its action count: they are computed from the pool data, the weight
    and the duration only. *)
Theorem Swimming_ignores_action libm_pow action action' rest self self' :
  __init__ Swimming (action :: rest) = Ok self ->
  __init__ Swimming (action' :: rest) = Ok self' ->
  get_mean_speed self = get_mean_speed self'
  /\ get_spent_calories libm_pow self = get_spent_calories libm_pow self'.
Proof.
  intros [Hlen ->]%init_inv [_ ->]%init_inv.
  vm_compute in Hlen.
  do 5 (destruct rest as [|? rest]; try discriminate Hlen).
  split; reflexivity.
Qed.

(** ** A height of zero *)

Lemma fails_bind_l {A B} (m : result A) (f : A -> result B) :
  fails m -> fails (m ≫= f).
Proof. intros [e ->]. by exists e. Qed.

Lemma fails_bind_r {A B} (m : result A) (f : A -> result B) :
  (forall a, fails (f a)) -> fails (m ≫= f).
Proof. intros H. destruct m as [a|e]; [apply H | by exists e]. Qed.

Lemma eqb_zero_Prim2SF f : (f =? 0)%float = true -> exists s, Prim2SF f = S754_zero s.
Proof.
  rewrite FloatAxioms.eqb_spec. change (Prim2SF 0) with (S754_zero false).
  destruct (Prim2SF f) as [s|s| |s m e]; cbn; try destruct s; try discriminate; eauto.
Qed.

Lemma float_zero_div_100 f : (f =? 0)%float = true -> (f / 100 =? 0)%float = true.
Proof.
  intros [s H]%eqb_zero_Prim2SF.
  rewrite FloatAxioms.eqb_spec, div_spec, H.
  by destruct s.
Qed.

Lemma zero_div_100 h :
  is_zero_num h = true ->
  exists z, Py.truediv h (Int 100) = Ok (Float z) /\ (z =? 0)%float = true.
Proof.
  destruct h as [n|f]; cbn [is_zero_num]; intros H.
  - apply Z.eqb_eq in H as ->. exists 0%float. split; vm_compute; reflexivity.
  - exists (f / 100)%float. split; [|by apply float_zero_div_100].
    unfold Py.truediv. cbn [Py.to_float mbind result_bind].
    change (Py.float_of_int 100) with (Py.to_float (Int 100)).
    assert (Py.to_float (Int 100) = Ok 100%float) as -> by (vm_compute; reflexivity).
    cbn [mbind result_bind]. unfold Py.float_div.
    by change (100 =? 0)%float with false.
Qed.

Lemma truediv_by_zero_fails a z :
  (z =? 0)%float = true -> fails (Py.truediv a (Float z)).
Proof.
  intros Hz. unfold Py.truediv.
  assert (forall x, fails (Float <$> Py.float_div x z)) as Hd.
  { intros x. unfold Py.float_div. rewrite Hz. by eexists. }
  destruct a as [n|x]; cbn [Py.to_float mbind result_bind]; [|apply Hd].
  apply fails_bind_r, Hd.
Qed.

(** X17: a SportsWalking workout whose height compares equal to zero has no
    calories: the division by [height / 100] raises
    [ZeroDivisionError], unless an earlier step raised already, and
    [get_spent_calories] ends in [ZeroDivisionError] or
    [OverflowError]. *)
Theorem zero_height_raises libm_pow self h :
  instance_of SportsWalking self ->
  self∙"height" = Ok h ->
  is_zero_num h = true ->
  exists e, arith_error e /\ get_spent_calories libm_pow self = Raise e.
Proof.
  intros H Hh Hz.
  assert (fails (get_spent_calories libm_pow self)) as [e He].
  { assert (get_spent_calories libm_pow self
            = SportsWalking_get_spent_calories libm_pow self) as ->
      by (by_shape H; reflexivity).
    unfold SportsWalking_get_spent_calories. rewrite Hh.
    assert (self∙"СM_IN_M" = Ok (Int 100)) as -> by (by_shape H; reflexivity).
    destruct (zero_div_100 h Hz) as (z & Hd & Hz').
    do 2 apply fails_bind_l. apply fails_bind_r. intros k.
    do 3 apply fails_bind_l. apply fails_bind_r. intros q.
    cbn [mbind result_bind]. rewrite Hd. cbn [mbind result_bind].
    by apply truediv_by_zero_fails. }
  exists e. split; [|done].
  apply (arith_only_get_spent_calories libm_pow SportsWalking self);
    [unfold variants; set_solver | done | done].
Qed.

(** ** Reading a rendered number back *)

Section ReadBack.

Local Open Scope Z_scope.

Lemma digits_value_app a b acc :
  digits_value acc (a ++ b) = digits_value (digits_value acc a) b.
Proof.
  revert acc. induction a as [|c a IH]; intros acc; [done|].
  change (String c a +:+ b) with (String c (a +:+ b)). cbn [digits_value].
  destruct (Fmt.is_digit c); apply IH.
Qed.

Lemma digits_value_digit acc n :
  digits_value acc (String (Fmt.digit n) "") = 10 * acc + n mod 10.
Proof.
  cbn [digits_value]. rewrite is_digit_digit. unfold Fmt.digit.
  pose proof (Z.mod_pos_bound n 10 ltac:(lia)).
  rewrite nat_ascii_embedding by lia. lia.
Qed.

Lemma digits_value_frac p :
  forall n acc,
    0 <= n ->
    digits_value acc (Fmt.frac_digits p n) = acc * 10 ^ Z.of_nat p + n mod 10 ^ Z.of_nat p.
Proof.
  induction p as [|p IH]; intros n acc Hn; cbn [Fmt.frac_digits digits_value].
  - change (10 ^ Z.of_nat 0) with 1. rewrite Z.mod_1_r. lia.
  - rewrite digits_value_app, digits_value_digit, IH by (apply Z.div_pos; lia).
    rewrite Nat2Z.inj_succ, Z.pow_succ_r by lia.
    rewrite (Z.rem_mul_r n 10 (10 ^ Z.of_nat p)) by lia. lia.
Qed.

Ltac digit_code :=
  match goal with
  | |- context [Z.of_nat (nat_of_ascii ?c)] =>
      let k := eval vm_compute in (Z.of_nat (nat_of_ascii c)) in
      change (Z.of_nat (nat_of_ascii c)) with k
  end.

Lemma digits_value_uint_acc d :
  forall acc,
    digits_value (Z.pos acc) (NilEmpty.string_of_uint d) = Z.pos (Pos.of_uint_acc d acc).
Proof.
  induction d; intros acc; cbn [NilEmpty.string_of_uint Pos.of_uint_acc]; [done|..];
    cbn [digits_value];
    match goal with
    | |- context [Fmt.is_digit ?c] => change (Fmt.is_digit c) with true
    end; cbn match; rewrite <- IHd; f_equal; digit_code; lia.
Qed.

Lemma digits_value_uint d :
  digits_value 0 (NilEmpty.string_of_uint d) = Z.of_N (Pos.of_uint d).
Proof.
  induction d; cbn [NilEmpty.string_of_uint Pos.of_uint]; [done|..];
    cbn [digits_value];
    match goal with
    | |- context [Fmt.is_digit ?c] => change (Fmt.is_digit c) with true
    end; cbn match; [apply IHd|..];
    cbn [Z.of_N]; rewrite <- digits_value_uint_acc; f_equal; digit_code; lia.
Qed.

Lemma digits_value_uint_zero d :
  digits_value 0 (NilZero.string_of_uint d) = Z.of_N (Pos.of_uint d).
Proof.
  destruct d; try apply digits_value_uint. reflexivity.
Qed.

Lemma digits_value_int n : 0 <= n -> digits_value 0 (Fmt.int_digits n) = n.
Proof.
  intros Hn. unfold Fmt.int_digits. rewrite digits_value_uint_zero.
  change (Pos.of_uint ?d) with (N.of_uint d).
  rewrite DecimalN.Unsigned.of_to. lia.
Qed.

Lemma read_fixed_fixed s p n :
  0 <= n -> read_fixed (Fmt.sign s ++ Fmt.fixed (S p) n) = n.
Proof.
  intros Hn. unfold read_fixed, Fmt.fixed.
  assert (digits_value 0 (Fmt.sign s) = 0) as Hs by (by destruct s).
  rewrite !digits_value_app, Hs, digits_value_int
    by (apply Z.div_pos; [lia | apply Z.pow_pos_nonneg; lia]).
  change (digits_value ?a ".") with a.
  rewrite digits_value_frac by done.
  pose proof (Z.div_mod n (10 ^ Z.of_nat (S p))
                ltac:(apply Z.pow_nonzero; lia)). lia.
Qed.

Lemma round_half_even_nearest n d :
  0 < d -> Z.abs (2 * (Fmt.round_half_even n d * d) - 2 * n) <= d.
Proof.
  intros Hd. unfold Fmt.round_half_even. cbv zeta.
  pose proof (Z.div_mod n d ltac:(lia)) as Hn.
  pose proof (Z.mod_pos_bound n d Hd) as Hr.
  set (q := n / d) in *. set (r := n mod d) in *. clearbody q r. subst n.
  destruct (Z.compare_spec (2 * r) d); try destruct (Z.even q); lia.
Qed.

Lemma scaled_nonneg p m e : 0 <= Fmt.scaled p m e.
Proof.
  unfold Fmt.scaled. pose proof (Z.pow_pos_nonneg 10 (Z.of_nat p) ltac:(lia) ltac:(lia)).
  destruct (0 <=? e) eqn:E.
  - apply Z.leb_le in E. pose proof (Z.pow_pos_nonneg 2 e ltac:(lia) E). nia.
  - apply Z.leb_gt in E.
    pose proof (Z.pow_pos_nonneg 2 (- e) ltac:(lia) ltac:(lia)) as Hd.
    unfold Fmt.round_half_even.
    pose proof (Z.div_pos (Z.pos m * 10 ^ Z.of_nat p) (2 ^ (- e)) ltac:(nia) Hd).
    destruct (_ ?= _); try destruct (Z.even _); lia.
Qed.

(** X18: the digits a finite float [m * 2^e] is rendered with under [.Nf],
    read back as a number of units of 10^-N, are the float's value
    rounded to the nearest unit: exact when the value is a whole number
    of units, and otherwise within half a unit. *)
Theorem format_f_reads_back p f s m e :
  Prim2SF f = S754_finite s m e ->
  let N := read_fixed (Fmt.format_f (S p) f) in
  N = Fmt.scaled (S p) m e
  /\ (0 <= e -> N = Z.pos m * 10 ^ Z.of_nat (S p) * 2 ^ e)
  /\ (e < 0 ->
      Z.abs (2 * (N * 2 ^ (- e)) - 2 * (Z.pos m * 10 ^ Z.of_nat (S p))) <= 2 ^ (- e)).
Proof.
  intros H N.
  assert (N = Fmt.scaled (S p) m e) as HN.
  { subst N. unfold Fmt.format_f. rewrite H.
    apply read_fixed_fixed, scaled_nonneg. }
  split_and!; [done|..]; rewrite HN; unfold Fmt.scaled.
  - intros He. by rewrite (proj2 (Z.leb_le 0 e)).
  - intros He. rewrite (proj2 (Z.leb_gt 0 e)) by done.
    apply round_half_even_nearest, Z.pow_pos_nonneg; lia.
Qed.

End ReadBack.

(** ** The further properties at concrete data *)

Lemma init_getattr_witness : example_walking∙"height" = Ok (Int 180).
Proof.
  apply (init_getattr SportsWalking [Int 9000; Int 1; Int 75; Int 180]
           example_walking 3 "height" (Int 180)); reflexivity.
Defined.

Lemma getattr_class_witness :
  example_running∙"height" = Raise AttributeError
  /\ example_running∙"M_IN_SEC" = Raise AttributeError.
Proof.
  split.
  - apply (proj2 (getattr_class Running [Int 15000; Int 1; Int 75]
                    example_running "height" eq_refl
                    ltac:(exists SportsWalking; left;
                          apply (bool_decide_unpack _); vm_compute; reflexivity)
                    ltac:(apply (bool_decide_unpack _); vm_compute; reflexivity))
             SportsWalking).
    apply (bool_decide_unpack _). vm_compute. reflexivity.
  - apply (proj1 (getattr_class Running [Int 15000; Int 1; Int 75]
                    example_running "M_IN_SEC" eq_refl
                    ltac:(exists SportsWalking; right; vm_compute; eauto)
                    ltac:(apply (bool_decide_unpack _); vm_compute; reflexivity))).
Defined.

Lemma class_constants_fixed_witness : example_swimming∙"LEN_STEP" = Ok (Float 1.38).
Proof.
  apply (class_constants_fixed Swimming [Int 720; Int 1; Int 80; Int 25; Int 40]).
  - reflexivity.
  - vm_compute. reflexivity.
Defined.

Lemma get_distance_closed_witness :
  get_distance example_running
  = (x ← Py.to_float (Int 15000);
     Ok (Float (x * Spec.step_length Running / 1000)%float)).
Proof.
  apply get_distance_closed.
  - apply instance_of_example_running.
  - reflexivity.
Defined.

Lemma Training_mean_speed_closed_witness :
  get_mean_speed example_running
  = (x ← Py.to_float (Int 15000);
     t ← Py.to_float (Int 1);
     if (t =? 0)%float then Raise ZeroDivisionError
     else Ok (Float (x * 0.65 / 1000 / t)%float)).
Proof.
  apply (Training_mean_speed_closed Running).
  - discriminate.
  - apply instance_of_example_running.
  - reflexivity.
  - reflexivity.
Defined.

Lemma zero_duration_raises_witness :
  exists e,
    arith_error e
    /\ get_mean_speed (instance Running [("action", Int 15000); ("duration", Int 0);
                                         ("weight", Int 75)]) = Raise e.
Proof.
  destruct (zero_duration_raises pow_exact Running
              (instance Running [("action", Int 15000); ("duration", Int 0);
                                 ("weight", Int 75)]) (Int 0))
    as (e & He & Hr & _).
  - by exists [Int 15000; Int 0; Int 75].
  - reflexivity.
  - reflexivity.
  - by exists e.
Defined.


Lemma read_package_returns_witness :
  read_package "RUN" [Int 15000; Int 1; Int 75] = Ok example_running.
Proof.
  apply read_package_returns. exists Running. split_and!.
  - reflexivity.
  - apply (bool_decide_unpack _). vm_compute. reflexivity.
  - reflexivity.
  - reflexivity.
Defined.

Lemma run_raises_witness :
  script_error TypeError
  /\ exists workout_type data self line,
       (workout_type, data) ∈ packages
       /\ read_package workout_type data = Ok self
       /\ main_line pow_exact self = Ok line
       /\ refusing line = Some UnicodeEncodeError.
Proof.
  split.
  - apply (proj2 (run_raises pow_exact accepting [("RUN", [Int 15000])] [] []
                    TypeError eq_refl)).
    reflexivity.
  - destruct (proj1 (run_raises pow_exact refusing packages [] []
                       UnicodeEncodeError eq_refl)) as [He | Hw].
    + exfalso. destruct He as [He | [He | [He | He]]]; discriminate He.
    + exact Hw.
Defined.

Lemma run_extends_witness :
  exists lines,
    (run pow_exact accepting packages ["earlier"]).1 = (["earlier"] ++ lines)%list
    /\ (length lines <= 3)%nat.
Proof.
  destruct (run_extends pow_exact accepting packages ["earlier"]
              (run pow_exact accepting packages ["earlier"]).1 None)
    as (lines & E & Hle & _).
  - vm_compute. reflexivity.
  - exists lines. split; [exact E | exact Hle].
Defined.

Lemma format_f_fixed_iff_finite_witness :
  Fmt.format_f 3 infinity = "inf" \/ Fmt.format_f 3 infinity = "-inf".
Proof.
  apply (format_f_fixed_iff_finite 2 infinity). reflexivity.
Defined.

Lemma get_message_raises_witness :
  exists z,
    Int z ∈ [Int (2 ^ 1024); Float 0; Float 0; Float 0]
    /\ Py.float_of_int z = Raise OverflowError.
Proof.
  apply (get_message_raises
           (InfoMessage.new "Running" (Int (2 ^ 1024)) (Float 0) (Float 0) (Float 0))
           OverflowError).
  vm_compute. reflexivity.
Defined.

Lemma show_training_info_fields_witness :
  exists m,
    show_training_info pow_exact example_swimming = Ok m
    /\ InfoMessage.training_type m = "Swimming".
Proof.
  eexists. split; [vm_compute; reflexivity|].
  eapply (show_training_info_fields pow_exact Swimming example_swimming).
  - apply (bool_decide_unpack _). vm_compute. reflexivity.
  - apply instance_of_example_swimming.
  - vm_compute. reflexivity.
Defined.

Lemma base_class_has_no_report_witness :
  show_training_info pow_exact
    (instance Training [("action", Int 15000); ("duration", Int 1); ("weight", Int 75)])
  = Raise (NotImplementedError "Метод будет реализован в дочерних классах").
Proof.
  eapply (base_class_has_no_report pow_exact).
  - by exists [Int 15000; Int 1; Int 75].
  - vm_compute. reflexivity.
  - vm_compute. reflexivity.
Defined.

Lemma Swimming_ignores_action_witness :
  get_spent_calories pow_exact example_swimming
  = get_spent_calories pow_exact
      (instance Swimming
         [("action", Int 0); ("duration", Int 1); ("weight", Int 80);
          ("length_pool", Int 25); ("count_pool", Int 40)]).
Proof.
  eapply (Swimming_ignores_action pow_exact (Int 720) (Int 0)
            [Int 1; Int 80; Int 25; Int 40]); reflexivity.
Defined.

Lemma zero_height_raises_witness :
  exists e,
    arith_error e
    /\ get_spent_calories pow_exact
         (instance SportsWalking
            [("action", Int 9000); ("duration", Int 1); ("weight", Int 75);
             ("height", Int 0)]) = Raise e.
Proof.
  apply (zero_height_raises pow_exact _ (Int 0)).
  - by exists [Int 9000; Int 1; Int 75; Int 0].
  - reflexivity.
  - reflexivity.
Defined.

Lemma format_f_reads_back_witness :
  exists s m e,
    Prim2SF 9.75 = S754_finite s m e
    /\ read_fixed (Fmt.format_f 3 9.75) = Fmt.scaled 3 m e.
Proof.
  eexists _, _, _. split; [vm_compute; reflexivity|].
  eapply (format_f_reads_back 2 9.75). vm_compute. reflexivity.
Defined.
